(** * Desktop Duplication native module: a model of [DesktopDuplicator]

    Shallow embedding of [src/kacamata/native/desktop_duplication.cc].

    The class keeps four COM smart pointers, the duplication descriptor, the
    [initialized_] flag and the [frame_count_] counter.  Its methods talk to
    Direct3D 11 / DXGI, whose answers the program cannot predict; every method
    of the model therefore takes the platform's replies (the HRESULTs and the
    out-values of the calls it makes) as an argument, and records the platform
    calls it issues, in order, in a log.  Dereferencing a null [ComPtr] is a
    crash of the process and is modelled as such. *)

From Stdlib Require Import ZArith List String Bool Lia.
Import ListNotations.
Local Open Scope Z_scope.

(** ** Machine integers *)

(** [UINT] is a 32-bit and [uint64_t] a 64-bit unsigned integer: arithmetic on
    them wraps around. *)
Definition wrap32 (x : Z) : Z := x mod 2 ^ 32.
Definition wrap64 (x : Z) : Z := x mod 2 ^ 64.

(** [HRESULT] is a signed 32-bit integer; negative values are failures. *)
Definition HRESULT := Z.
Definition SUCCEEDED (hr : HRESULT) : bool := 0 <=? hr.
Definition FAILED (hr : HRESULT) : bool := hr <? 0.
Definition S_OK : HRESULT := 0.

(** The two DXGI codes the program names, with the values of the Windows SDK
    header [winerror.h] ([0x887A0027] and [0x887A0026], read as signed 32-bit
    integers). *)
Definition DXGI_ERROR_WAIT_TIMEOUT : HRESULT := 0x887A0027 - 2 ^ 32.
Definition DXGI_ERROR_ACCESS_LOST : HRESULT := 0x887A0026 - 2 ^ 32.
(** Another failure code of the same header, used in examples. *)
Definition E_FAIL : HRESULT := 0x80004005 - 2 ^ 32.

(** ** JavaScript numbers

    [Napi::Number::New] takes a [double].  Every number the module hands to
    JavaScript starts as an unsigned integer, so the conversion is the
    rounding of a non-negative integer to the nearest value with a 53-bit
    significand, ties to even; the result is again an integer. *)
Definition Number_New (x : Z) : Z :=
  if x <? 2 ^ 53 then x
  else
    let e := Z.log2 x - 52 in
    let q := Z.shiftr x e in
    let r := x - Z.shiftl q e in
    let half := 2 ^ (e - 1) in
    let q' := if r <? half then q
              else if half <? r then q + 1
              else if Z.even q then q else q + 1 in
    Z.shiftl q' e.

(** ** Platform objects *)

(** Identity of a COM object. *)
Definition handle := N.

(** What the CPU reads from a texture: given the row pitch of a mapping and a
    byte offset into the mapped memory, the byte found there. *)
Definition Image := Z -> Z -> Z.

Record DXGI_RATIONAL := {
  Numerator : Z;
  Denominator : Z
}.

(** The fields of [DXGI_MODE_DESC] the program reads. *)
Record DXGI_MODE_DESC := {
  Width : Z;
  Height : Z;
  RefreshRate : DXGI_RATIONAL;
  Format : Z
}.

Record DXGI_OUTDUPL_DESC := {
  ModeDesc : DXGI_MODE_DESC
}.

(** The duplication interface.  Whether a frame is outstanding is state of the
    platform object, changed by [AcquireNextFrame] and [ReleaseFrame]; the
    program keeps no copy of it. *)
Record IDXGIOutputDuplication := {
  dupl_id : handle;
  frame_held : bool
}.

(** A 2D texture: the description it was created with and its contents. *)
Record ID3D11Texture2D := {
  tex_id : handle;
  tex_Width : Z;
  tex_Height : Z;
  tex_Format : Z;
  tex_pixels : Image
}.

(** ** The object *)

Record DesktopDuplicator := {
  device_ : option handle;
  context_ : option handle;
  duplication_ : option IDXGIOutputDuplication;
  staging_texture_ : option ID3D11Texture2D;
  duplication_desc_ : DXGI_OUTDUPL_DESC;
  initialized_ : bool;
  frame_count_ : Z
}.

(** The constructor.  [duplication_desc_] has no initialiser in the class, so
    it starts with whatever the memory holds. *)
Definition DesktopDuplicator_new (garbage : DXGI_OUTDUPL_DESC) : DesktopDuplicator :=
  {| device_ := None; context_ := None; duplication_ := None;
     staging_texture_ := None; duplication_desc_ := garbage;
     initialized_ := false; frame_count_ := 0 |}.

Definition set_device_ (v : option handle) (s : DesktopDuplicator) :=
  {| device_ := v; context_ := context_ s; duplication_ := duplication_ s;
     staging_texture_ := staging_texture_ s;
     duplication_desc_ := duplication_desc_ s;
     initialized_ := initialized_ s; frame_count_ := frame_count_ s |}.

Definition set_context_ (v : option handle) (s : DesktopDuplicator) :=
  {| device_ := device_ s; context_ := v; duplication_ := duplication_ s;
     staging_texture_ := staging_texture_ s;
     duplication_desc_ := duplication_desc_ s;
     initialized_ := initialized_ s; frame_count_ := frame_count_ s |}.

Definition set_duplication_ (v : option IDXGIOutputDuplication) (s : DesktopDuplicator) :=
  {| device_ := device_ s; context_ := context_ s; duplication_ := v;
     staging_texture_ := staging_texture_ s;
     duplication_desc_ := duplication_desc_ s;
     initialized_ := initialized_ s; frame_count_ := frame_count_ s |}.

Definition set_staging_texture_ (v : option ID3D11Texture2D) (s : DesktopDuplicator) :=
  {| device_ := device_ s; context_ := context_ s; duplication_ := duplication_ s;
     staging_texture_ := v;
     duplication_desc_ := duplication_desc_ s;
     initialized_ := initialized_ s; frame_count_ := frame_count_ s |}.

Definition set_duplication_desc_ (v : DXGI_OUTDUPL_DESC) (s : DesktopDuplicator) :=
  {| device_ := device_ s; context_ := context_ s; duplication_ := duplication_ s;
     staging_texture_ := staging_texture_ s;
     duplication_desc_ := v;
     initialized_ := initialized_ s; frame_count_ := frame_count_ s |}.

Definition set_initialized_ (v : bool) (s : DesktopDuplicator) :=
  {| device_ := device_ s; context_ := context_ s; duplication_ := duplication_ s;
     staging_texture_ := staging_texture_ s;
     duplication_desc_ := duplication_desc_ s;
     initialized_ := v; frame_count_ := frame_count_ s |}.

Definition set_frame_count_ (v : Z) (s : DesktopDuplicator) :=
  {| device_ := device_ s; context_ := context_ s; duplication_ := duplication_ s;
     staging_texture_ := staging_texture_ s;
     duplication_desc_ := duplication_desc_ s;
     initialized_ := initialized_ s; frame_count_ := v |}.

(** ** Platform calls

    The calls the object makes on its four members and on the objects it
    creates them from, with the HRESULT the platform answered.  A [ComPtr]
    gives up its reference ([IUnknown::Release]) when it is [Reset] or when
    its address is taken with [&] to receive a new object; that is the
    [Release_*] event, and it only happens for a pointer that is not null. *)
Inductive event :=
| D3D11CreateDevice (hr : HRESULT)
| QueryInterface_IDXGIDevice (hr : HRESULT)
| GetAdapter (hr : HRESULT)
| EnumOutputs (output : Z) (hr : HRESULT)
| QueryInterface_IDXGIOutput1 (hr : HRESULT)
| DuplicateOutput (hr : HRESULT)
| GetDesc
| CreateTexture2D (hr : HRESULT)
| AcquireNextFrame (hr : HRESULT)
| QueryInterface_ID3D11Texture2D (hr : HRESULT)
| CopyResource
| ReleaseFrame
| Map (hr : HRESULT)
| Unmap
| Release_duplication (h : handle)
| Release_staging_texture (h : handle)
| Release_context (h : handle)
| Release_device (h : handle).

(** ** The monad of a method body: state, log of platform calls, crash *)

Inductive outcome (A : Type) : Type :=
| Crash (log : list event)
| Done (a : A) (s : DesktopDuplicator) (log : list event).
Arguments Crash {A} log.
Arguments Done {A} a s log.

Definition M (A : Type) : Type := DesktopDuplicator -> outcome A.

Definition ret {A} (a : A) : M A := fun s => Done a s [].

Definition bind {A B} (m : M A) (f : A -> M B) : M B := fun s =>
  match m s with
  | Crash l => Crash l
  | Done a s1 l1 =>
      match f a s1 with
      | Crash l2 => Crash (l1 ++ l2)
      | Done b s2 l2 => Done b s2 (l1 ++ l2)
      end
  end.

Declare Scope dd_scope.
Delimit Scope dd_scope with dd.
Notation "x <- m ;; k" := (bind m (fun x => k))
  (at level 61, m at next level, right associativity) : dd_scope.
Notation "m ;; k" := (bind m (fun _ => k))
  (at level 61, right associativity) : dd_scope.
Local Open Scope dd_scope.

Definition get : M DesktopDuplicator := fun s => Done s s [].
Definition modify (f : DesktopDuplicator -> DesktopDuplicator) : M unit :=
  fun s => Done tt (f s) [].
Definition emit (e : event) : M unit := fun s => Done tt s [e].
Definition skip : M unit := ret tt.

(** [p->] on a [ComPtr]: a null pointer ends the process. *)
Definition deref {A} (p : option A) : M A := fun s =>
  match p with
  | Some x => Done x s []
  | None => Crash []
  end.

Definition events_of {A} (o : outcome A) : list event :=
  match o with
  | Crash l => l
  | Done _ _ l => l
  end.

(** ** What a method hands back to JavaScript *)

Inductive value :=
| Undefined
| Boolean (b : bool)
| TextureObject (data : list Z) (width height pitch : Z)
| FrameInfoObject (width height : Z) (refreshRate : DXGI_RATIONAL) (frameCount : Z).

(** The returned value and the pending JavaScript exception, if one was
    thrown: JavaScript then sees the exception, not the value. *)
Record js_result := {
  returned : value;
  thrown : option string
}.

Definition returns (v : value) : js_result := {| returned := v; thrown := None |}.
Definition throws (msg : string) (v : value) : js_result :=
  {| returned := v; thrown := Some msg |}.

(** ** Replies of the platform *)

(** Everything the platform answers during one [Initialize]. *)
Record init_reply := {
  create_device_hr : HRESULT;
  new_device : handle;
  new_context : handle;
  dxgi_device_hr : HRESULT;
  get_adapter_hr : HRESULT;
  enum_outputs_hr : Z -> HRESULT;   (* by output index *)
  output1_hr : HRESULT;
  duplicate_output_hr : HRESULT;
  new_duplication : handle;
  got_desc : DXGI_OUTDUPL_DESC;
  create_texture_hr : HRESULT;
  new_texture : handle;
  new_texture_pixels : Image
}.

(** Everything the platform answers during one [CaptureFrame]. *)
Record acquire_reply := {
  acquire_hr : HRESULT;
  desktop_image : Image;
  texture_qi_hr : HRESULT
}.

(** Everything the platform answers during one [GetTexture]. *)
Record map_reply := {
  map_hr : HRESULT;
  RowPitch : Z
}.

(** An argument of a JavaScript call: a number, given by what
    [Int32Value()] makes of it, or anything else. *)
Inductive js_value :=
| JsNumber (int32_value : Z)
| JsOther.

(** ** Smart-pointer helpers *)

(** [device_.Reset()], and [&device_] handed to a creating call. *)
Definition Reset_device_ : M unit :=
  s <- get ;;
  match device_ s with
  | Some h => emit (Release_device h) ;; modify (set_device_ None)
  | None => skip
  end.

Definition Reset_context_ : M unit :=
  s <- get ;;
  match context_ s with
  | Some h => emit (Release_context h) ;; modify (set_context_ None)
  | None => skip
  end.

Definition Reset_duplication_ : M unit :=
  s <- get ;;
  match duplication_ s with
  | Some d => emit (Release_duplication (dupl_id d)) ;; modify (set_duplication_ None)
  | None => skip
  end.

Definition Reset_staging_texture_ : M unit :=
  s <- get ;;
  match staging_texture_ s with
  | Some t => emit (Release_staging_texture (tex_id t)) ;; modify (set_staging_texture_ None)
  | None => skip
  end.

(** [duplication_->ReleaseFrame()]; its HRESULT is ignored by every caller. *)
Definition duplication_ReleaseFrame : M unit :=
  s <- get ;;
  d <- deref (duplication_ s) ;;
  emit ReleaseFrame ;;
  modify (set_duplication_ (Some {| dupl_id := dupl_id d; frame_held := false |})).

(** ** The helper methods *)

(** [InitializeD3D11].  The two out-parameters are [&device_] and
    [&context_]; the old references are dropped while the arguments are
    evaluated (in an order C++ leaves open), and a failed call leaves both
    null. *)
Definition InitializeD3D11 (p : init_reply) : M bool :=
  Reset_device_ ;;
  Reset_context_ ;;
  emit (D3D11CreateDevice (create_device_hr p)) ;;
  (if SUCCEEDED (create_device_hr p)
   then modify (set_device_ (Some (new_device p))) ;;
        modify (set_context_ (Some (new_context p)))
   else skip) ;;
  ret (SUCCEEDED (create_device_hr p)).

(** [CreateDuplication].  [output_index] is an [int] passed to a [UINT]
    parameter. *)
Definition CreateDuplication (output_index : Z) (p : init_reply) : M bool :=
  s <- get ;;
  _ <- deref (device_ s) ;;
  emit (QueryInterface_IDXGIDevice (dxgi_device_hr p)) ;;
  if FAILED (dxgi_device_hr p) then ret false else
  emit (GetAdapter (get_adapter_hr p)) ;;
  if FAILED (get_adapter_hr p) then ret false else
  let output := wrap32 output_index in
  emit (EnumOutputs output (enum_outputs_hr p output)) ;;
  if FAILED (enum_outputs_hr p output) then ret false else
  emit (QueryInterface_IDXGIOutput1 (output1_hr p)) ;;
  if FAILED (output1_hr p) then ret false else
  Reset_duplication_ ;;
  emit (DuplicateOutput (duplicate_output_hr p)) ;;
  if FAILED (duplicate_output_hr p) then ret false else
  modify (set_duplication_
            (Some {| dupl_id := new_duplication p; frame_held := false |})) ;;
  emit GetDesc ;;
  modify (set_duplication_desc_ (got_desc p)) ;;
  let staging_Width := Width (ModeDesc (got_desc p)) in
  let staging_Height := Height (ModeDesc (got_desc p)) in
  let staging_Format := Format (ModeDesc (got_desc p)) in
  Reset_staging_texture_ ;;
  emit (CreateTexture2D (create_texture_hr p)) ;;
  (if SUCCEEDED (create_texture_hr p)
   then modify (set_staging_texture_
                  (Some {| tex_id := new_texture p;
                           tex_Width := staging_Width;
                           tex_Height := staging_Height;
                           tex_Format := staging_Format;
                           tex_pixels := new_texture_pixels p |}))
   else skip) ;;
  ret (SUCCEEDED (create_texture_hr p)).

(** ** The NAPI methods *)

Definition Initialize (info : list js_value) (p : init_reply) : M js_result :=
  s <- get ;;
  if initialized_ s then ret (returns (Boolean true)) else
  let output_index :=
    match info with
    | JsNumber n :: _ => n
    | _ => 0
    end in
  ok <- InitializeD3D11 p ;;
  if negb ok
  then ret (throws "Failed to initialize D3D11" (Boolean false))
  else
  ok <- CreateDuplication output_index p ;;
  if negb ok
  then ret (throws "Failed to create desktop duplication" (Boolean false))
  else
  modify (set_initialized_ true) ;;
  ret (returns (Boolean true)).

Definition CaptureFrame (p : acquire_reply) : M js_result :=
  s <- get ;;
  if negb (initialized_ s)
  then ret (throws "Not initialized" Undefined)
  else
  (* Acquire next frame *)
  d <- deref (duplication_ s) ;;
  let hr := acquire_hr p in
  emit (AcquireNextFrame hr) ;;
  (if SUCCEEDED hr
   then modify (set_duplication_ (Some {| dupl_id := dupl_id d; frame_held := true |}))
   else skip) ;;
  if hr =? DXGI_ERROR_WAIT_TIMEOUT
  then ret (returns (Boolean false))      (* No new frame available *)
  else
  if FAILED hr
  then
    (if hr =? DXGI_ERROR_ACCESS_LOST
     then modify (set_initialized_ false) (* need to recreate *)
     else skip) ;;
    ret (returns (Boolean false))
  else
  (* Get texture from resource *)
  let hr := texture_qi_hr p in
  emit (QueryInterface_ID3D11Texture2D hr) ;;
  if FAILED hr
  then duplication_ReleaseFrame ;; ret (returns (Boolean false))
  else
  (* Copy to staging texture if needed *)
  s <- get ;;
  match staging_texture_ s with
  | Some t =>
      _ <- deref (context_ s) ;;
      emit CopyResource ;;
      modify (set_staging_texture_
                (Some {| tex_id := tex_id t;
                         tex_Width := tex_Width t;
                         tex_Height := tex_Height t;
                         tex_Format := tex_Format t;
                         tex_pixels := desktop_image p |}))
  | None => skip
  end ;;
  (* Release frame *)
  duplication_ReleaseFrame ;;
  modify (fun s => set_frame_count_ (wrap64 (frame_count_ s + 1)) s) ;;
  ret (returns (Boolean true)).

(** [Napi::Buffer<uint8_t>::Copy(env, pData, n)]: the first [n] bytes of the
    mapped memory. *)
Definition Buffer_Copy (mapped : Z -> Z) (n : Z) : list Z :=
  List.map (fun i => mapped (Z.of_nat i)) (seq 0 (Z.to_nat n)).

Definition GetTexture (p : map_reply) : M value :=
  s <- get ;;
  match staging_texture_ s with
  | None => ret Undefined
  | Some t =>
      _ <- deref (context_ s) ;;
      emit (Map (map_hr p)) ;;
      if FAILED (map_hr p) then ret Undefined else
      (* Create buffer with frame data: a product of two UINTs *)
      let data_size := wrap32 (Height (ModeDesc (duplication_desc_ s)) * RowPitch p) in
      let buffer := Buffer_Copy (tex_pixels t (RowPitch p)) data_size in
      emit Unmap ;;
      ret (TextureObject buffer
             (Number_New (Width (ModeDesc (duplication_desc_ s))))
             (Number_New (Height (ModeDesc (duplication_desc_ s))))
             (Number_New (RowPitch p)))
  end.

(** The [refreshRate] property is the quotient of the two parts of the
    rational in [double] arithmetic; the model keeps the rational. *)
Definition GetFrameInfo : M value :=
  s <- get ;;
  if negb (initialized_ s) then ret Undefined else
  ret (FrameInfoObject
         (Number_New (Width (ModeDesc (duplication_desc_ s))))
         (Number_New (Height (ModeDesc (duplication_desc_ s))))
         (RefreshRate (ModeDesc (duplication_desc_ s)))
         (Number_New (frame_count_ s))).

Definition Release : M value :=
  s <- get ;;
  match duplication_ s with
  | Some _ => duplication_ReleaseFrame ;; Reset_duplication_
  | None => skip
  end ;;
  Reset_staging_texture_ ;;
  Reset_context_ ;;
  Reset_device_ ;;
  modify (set_initialized_ false) ;;
  ret Undefined.

(** [Napi::CallbackInfo(env, info)]: the constructor asks Node-API for the
    call behind the handle [info] ([napi_get_cb_info]).  For a null handle
    Node-API answers [napi_invalid_arg], and the constructor raises an
    [Error] with the message of that status; otherwise the object is
    built. *)
Definition CallbackInfo_new (info : option handle) : option string :=
  match info with
  | Some _ => None
  | None => Some "Invalid argument"%string
  end.

(** The destructor, [Release(Napi::CallbackInfo(Env(), nullptr))].  The
    argument is built before the call: when building it raises, [Release]
    does not run. *)
Definition DesktopDuplicator_destroy : M js_result :=
  match CallbackInfo_new None with
  | Some msg => ret (throws msg Undefined)
  | None => v <- Release ;; ret (returns v)
  end.

(** ** Sequences of calls from JavaScript *)

Inductive api :=
| initialize (info : list js_value) (p : init_reply)
| captureFrame (p : acquire_reply)
| getTexture (p : map_reply)
| getFrameInfo
| release.

Definition call (c : api) : M js_result :=
  match c with
  | initialize info p => Initialize info p
  | captureFrame p => CaptureFrame p
  | getTexture p => v <- GetTexture p ;; ret (returns v)
  | getFrameInfo => v <- GetFrameInfo ;; ret (returns v)
  | release => v <- Release ;; ret (returns v)
  end.

Fixpoint run (cs : list api) : M (list js_result) :=
  match cs with
  | [] => ret []
  | c :: cs' => r <- call c ;; rs <- run cs' ;; ret (r :: rs)
  end.

(** ** Properties of states, logs and calls *)

(** What holds of the object between any two calls from JavaScript. *)
Record inv (s : DesktopDuplicator) : Prop := {
  inv_ready : initialized_ s = true ->
      device_ s <> None /\ context_ s <> None /\
      duplication_ s <> None /\ staging_texture_ s <> None;
  inv_released : forall d, duplication_ s = Some d -> frame_held d = false;
  inv_staging : forall t, staging_texture_ s = Some t ->
      tex_Width t = Width (ModeDesc (duplication_desc_ s)) /\
      tex_Height t = Height (ModeDesc (duplication_desc_ s)) /\
      tex_Format t = Format (ModeDesc (duplication_desc_ s));
  inv_count : 0 <= frame_count_ s < 2 ^ 64
}.

(** The acquire/release discipline, checked along a log.  [held] says whether
    a frame is outstanding; the result is the same flag at the end of the log,
    or [None] when [AcquireNextFrame] was called while a frame was
    outstanding. *)
Fixpoint pairing (held : bool) (log : list event) : option bool :=
  match log with
  | [] => Some held
  | AcquireNextFrame hr :: l =>
      if held then None else pairing (SUCCEEDED hr) l
  | ReleaseFrame :: l => pairing false l
  | _ :: l => pairing held l
  end.

(** A [captureFrame] call that returned [true]. *)
Definition captured (c : api) (r : js_result) : bool :=
  match c, returned r with
  | captureFrame _, Boolean true => true
  | _, _ => false
  end.

(** The value [getFrameInfo] reports as [frameCount] in state [s]. *)
Definition reported_frameCount (s : DesktopDuplicator) : Z :=
  Number_New (frame_count_ s).

(** The platform calls of a teardown, in order. *)
Definition teardown_log (s : DesktopDuplicator) : list event :=
  match duplication_ s with
  | Some d => [ReleaseFrame; Release_duplication (dupl_id d)]
  | None => []
  end ++
  match staging_texture_ s with
  | Some t => [Release_staging_texture (tex_id t)]
  | None => []
  end ++
  match context_ s with
  | Some h => [Release_context h]
  | None => []
  end ++
  match device_ s with
  | Some h => [Release_device h]
  | None => []
  end.

(** The object with every resource null and the flag cleared. *)
Definition torn_down (s : DesktopDuplicator) : DesktopDuplicator :=
  {| device_ := None; context_ := None; duplication_ := None;
     staging_texture_ := None; duplication_desc_ := duplication_desc_ s;
     initialized_ := false; frame_count_ := frame_count_ s |}.

Definition is_initialize (c : api) : bool :=
  match c with
  | initialize _ _ => true
  | _ => false
  end.

(** Calls that neither set a session up nor tear it down. *)
Definition is_query_or_capture (c : api) : bool :=
  match c with
  | captureFrame _ | getTexture _ | getFrameInfo => true
  | initialize _ _ | release => false
  end.

(** The output index [Initialize] passes on. *)
Definition output_index_of (info : list js_value) : Z :=
  match info with
  | JsNumber n :: _ => n
  | _ => 0
  end.

(** Some platform call of the setup failed. *)
Definition setup_fails (info : list js_value) (p : init_reply) : bool :=
  FAILED (create_device_hr p) ||
  FAILED (dxgi_device_hr p) ||
  FAILED (get_adapter_hr p) ||
  FAILED (enum_outputs_hr p (wrap32 (output_index_of info))) ||
  FAILED (output1_hr p) ||
  FAILED (duplicate_output_hr p) ||
  FAILED (create_texture_hr p).

(** A [UINT] value. *)
Definition UINT_typed (x : Z) : Prop := 0 <= x < 2 ^ 32.

(** The descriptor the platform hands out has [UINT] dimensions. *)
Definition well_typed (c : api) : Prop :=
  match c with
  | initialize _ p =>
      UINT_typed (Width (ModeDesc (got_desc p))) /\
      UINT_typed (Height (ModeDesc (got_desc p)))
  | _ => True
  end.

Definition staging_typed (s : DesktopDuplicator) : Prop :=
  forall t, staging_texture_ s = Some t ->
    UINT_typed (tex_Width t) /\ UINT_typed (tex_Height t).

(** ** Concrete platform replies, for examples *)

Definition DXGI_FORMAT_B8G8R8A8_UNORM : Z := 87.
Definition DXGI_ERROR_INVALID_CALL : HRESULT := 0x887A0001 - 2 ^ 32.
Definition DXGI_ERROR_NOT_FOUND : HRESULT := 0x887A0002 - 2 ^ 32.

Definition blank : Image := fun _ _ => 0.
Definition gradient : Image := fun _ offset => offset mod 256.

Definition no_desc : DXGI_OUTDUPL_DESC :=
  {| ModeDesc := {| Width := 0; Height := 0;
                    RefreshRate := {| Numerator := 0; Denominator := 0 |};
                    Format := 0 |} |}.

Definition desc_of (w h : Z) : DXGI_OUTDUPL_DESC :=
  {| ModeDesc := {| Width := w; Height := h;
                    RefreshRate := {| Numerator := 60; Denominator := 1 |};
                    Format := DXGI_FORMAT_B8G8R8A8_UNORM |} |}.

(** A platform with two outputs on which every setup call succeeds. *)
Definition setup_ok (d : DXGI_OUTDUPL_DESC) : init_reply :=
  {| create_device_hr := S_OK; new_device := 1%N; new_context := 2%N;
     dxgi_device_hr := S_OK; get_adapter_hr := S_OK;
     enum_outputs_hr := fun i => if i <? 2 then S_OK else DXGI_ERROR_NOT_FOUND;
     output1_hr := S_OK; duplicate_output_hr := S_OK; new_duplication := 3%N;
     got_desc := d; create_texture_hr := S_OK; new_texture := 4%N;
     new_texture_pixels := blank |}.

(** The same platform refusing to create the staging texture. *)
Definition setup_no_texture (d : DXGI_OUTDUPL_DESC) : init_reply :=
  {| create_device_hr := S_OK; new_device := 1%N; new_context := 2%N;
     dxgi_device_hr := S_OK; get_adapter_hr := S_OK;
     enum_outputs_hr := fun i => if i <? 2 then S_OK else DXGI_ERROR_NOT_FOUND;
     output1_hr := S_OK; duplicate_output_hr := S_OK; new_duplication := 3%N;
     got_desc := d; create_texture_hr := E_FAIL; new_texture := 4%N;
     new_texture_pixels := blank |}.

Definition frame_ready : acquire_reply :=
  {| acquire_hr := S_OK; desktop_image := gradient; texture_qi_hr := S_OK |}.
Definition no_new_frame : acquire_reply :=
  {| acquire_hr := DXGI_ERROR_WAIT_TIMEOUT; desktop_image := blank; texture_qi_hr := S_OK |}.
Definition access_lost : acquire_reply :=
  {| acquire_hr := DXGI_ERROR_ACCESS_LOST; desktop_image := blank; texture_qi_hr := S_OK |}.
Definition invalid_call : acquire_reply :=
  {| acquire_hr := DXGI_ERROR_INVALID_CALL; desktop_image := blank; texture_qi_hr := S_OK |}.

Definition mapped (pitch : Z) : map_reply := {| map_hr := S_OK; RowPitch := pitch |}.

(** A session on a 4x2 desktop after setup, and the same with one frame
    captured. *)
Definition ready_4x2 : DesktopDuplicator :=
  {| device_ := Some 1%N; context_ := Some 2%N;
     duplication_ := Some {| dupl_id := 3%N; frame_held := false |};
     staging_texture_ :=
       Some {| tex_id := 4%N; tex_Width := 4; tex_Height := 2;
               tex_Format := DXGI_FORMAT_B8G8R8A8_UNORM; tex_pixels := blank |};
     duplication_desc_ := desc_of 4 2;
     initialized_ := true; frame_count_ := 0 |}.

(** A state no sequence of calls produces: the platform object has a frame
    outstanding on entry to a method. *)
Definition frame_outstanding : DesktopDuplicator :=
  set_duplication_ (Some {| dupl_id := 3%N; frame_held := true |}) ready_4x2.

(** [2^53] successful captures in a row. *)
Definition many_frames : list api :=
  repeat (captureFrame frame_ready) (Z.to_nat (2 ^ 53)).

(** The platform calls of a setup in which every call succeeds, on output 0. *)
Definition setup_log : list event :=
  [D3D11CreateDevice S_OK; QueryInterface_IDXGIDevice S_OK; GetAdapter S_OK;
   EnumOutputs 0 S_OK; QueryInterface_IDXGIOutput1 S_OK; DuplicateOutput S_OK;
   GetDesc; CreateTexture2D S_OK].

(** The platform calls of a capture that copies a frame. *)
Definition capture_log : list event :=
  [AcquireNextFrame S_OK; QueryInterface_ID3D11Texture2D S_OK; CopyResource;
   ReleaseFrame].

Definition rate_60 : DXGI_RATIONAL := {| Numerator := 60; Denominator := 1 |}.

(** When a texture is there to map, so is the context to map it with. *)
Definition mappable (s : DesktopDuplicator) : Prop :=
  staging_texture_ s <> None -> context_ s <> None.

(** A session on which a capture can go through. *)
Definition ready (s : DesktopDuplicator) : Prop :=
  initialized_ s = true /\ duplication_ s <> None /\ context_ s <> None.

(** [ready_4x2] after one captured frame. *)
Definition one_frame_4x2 : DesktopDuplicator :=
  {| device_ := Some 1%N; context_ := Some 2%N;
     duplication_ := Some {| dupl_id := 3%N; frame_held := false |};
     staging_texture_ :=
       Some {| tex_id := 4%N; tex_Width := 4; tex_Height := 2;
               tex_Format := DXGI_FORMAT_B8G8R8A8_UNORM; tex_pixels := gradient |};
     duplication_desc_ := desc_of 4 2;
     initialized_ := true; frame_count_ := 1 |}.

(** What [GetTexture] answers when the mapping succeeds: the bytes of texture
    [t] under the descriptor [d]. *)
Definition texture_object (t : ID3D11Texture2D) (d : DXGI_OUTDUPL_DESC) (m : map_reply) : value :=
  TextureObject
    (Buffer_Copy (tex_pixels t (RowPitch m))
                 (wrap32 (Height (ModeDesc d) * RowPitch m)))
    (Number_New (Width (ModeDesc d)))
    (Number_New (Height (ModeDesc d)))
    (Number_New (RowPitch m)).

(** Rounding to the nearest multiple of [2 * half], ties to the even
    multiple: what [Number_New] does from [2^53] on, where [half] depends on
    the size of the number. *)
Definition round_grid (half x : Z) : Z :=
  let P := 2 * half in
  let q := x / P in
  let r := x mod P in
  (if r <? half then q
   else if half <? r then q + 1
   else if Z.even q then q else q + 1) * P.

(** [2^64 - 1] successful captures in a row. *)
Definition frames_until_wrap : list api :=
  repeat (captureFrame frame_ready) (Z.to_nat (2 ^ 64 - 1)).


(** The platform serving a frame whose resource is not a 2D texture. *)
Definition not_a_texture : acquire_reply :=
  {| acquire_hr := S_OK; desktop_image := gradient; texture_qi_hr := E_FAIL |}.

(** A platform on which no device can be created. *)
Definition setup_no_device : init_reply :=
  {| create_device_hr := E_FAIL; new_device := 1%N; new_context := 2%N;
     dxgi_device_hr := S_OK; get_adapter_hr := S_OK;
     enum_outputs_hr := fun i => if i <? 2 then S_OK else DXGI_ERROR_NOT_FOUND;
     output1_hr := S_OK; duplicate_output_hr := S_OK; new_duplication := 3%N;
     got_desc := desc_of 4 2; create_texture_hr := S_OK; new_texture := 4%N;
     new_texture_pixels := blank |}.

(** ** Further properties of logs, states and runs *)

(** The value of an outcome, when there is one. *)
Definition answer {A} (o : outcome A) : option A :=
  match o with
  | Done a _ _ => Some a
  | Crash _ => None
  end.

(** A platform call that answered a failure code. *)
Definition event_failed (e : event) : bool :=
  match e with
  | D3D11CreateDevice hr | QueryInterface_IDXGIDevice hr | GetAdapter hr
  | EnumOutputs _ hr | QueryInterface_IDXGIOutput1 hr | DuplicateOutput hr
  | CreateTexture2D hr | AcquireNextFrame hr
  | QueryInterface_ID3D11Texture2D hr | Map hr => FAILED hr
  | _ => false
  end.

(** A smart pointer giving up its reference. *)
Definition is_release (e : event) : bool :=
  match e with
  | Release_duplication _ | Release_staging_texture _
  | Release_context _ | Release_device _ => true
  | _ => false
  end.

(** The calls of a complete setup, in the order of [InitializeD3D11] and
    [CreateDuplication]. *)
Definition setup_calls (info : list js_value) (p : init_reply) : list event :=
  [D3D11CreateDevice (create_device_hr p);
   QueryInterface_IDXGIDevice (dxgi_device_hr p);
   GetAdapter (get_adapter_hr p);
   EnumOutputs (wrap32 (output_index_of info))
               (enum_outputs_hr p (wrap32 (output_index_of info)));
   QueryInterface_IDXGIOutput1 (output1_hr p);
   DuplicateOutput (duplicate_output_hr p);
   GetDesc;
   CreateTexture2D (create_texture_hr p)].

(** A list of calls cut after the first one that failed. *)
Fixpoint until_failure (l : list event) : list event :=
  match l with
  | [] => []
  | e :: l' => if event_failed e then [e] else e :: until_failure l'
  end.

(** The mapping discipline of the staging texture, checked along a log:
    [mapped] says whether the texture is mapped; the result is the same flag
    at the end, or [None] when the texture was mapped twice, unmapped while
    not mapped, or copied into or released while mapped. *)
Fixpoint mapping (mapped : bool) (log : list event) : option bool :=
  match log with
  | [] => Some mapped
  | Map hr :: l => if mapped then None else mapping (SUCCEEDED hr) l
  | Unmap :: l => if mapped then mapping false l else None
  | CopyResource :: l => if mapped then None else mapping false l
  | Release_staging_texture _ :: l => if mapped then None else mapping false l
  | Release_context _ :: l => if mapped then None else mapping false l
  | _ :: l => mapping mapped l
  end.

(** The use of an acquired frame, checked along a log: [held] says whether
    a frame is outstanding; the result is the same flag at the end, or [None]
    when the frame's texture was queried or copied while no frame was
    outstanding. *)
Fixpoint frame_use (held : bool) (log : list event) : option bool :=
  match log with
  | [] => Some held
  | AcquireNextFrame hr :: l => frame_use (held || SUCCEEDED hr) l
  | ReleaseFrame :: l => frame_use false l
  | CopyResource :: l => if held then frame_use held l else None
  | QueryInterface_ID3D11Texture2D _ :: l =>
      if held then frame_use held l else None
  | _ :: l => frame_use held l
  end.

(** The four members that hold a COM reference. *)
Inductive member := m_device | m_context | m_duplication | m_staging_texture.

Definition not_null {A} (p : option A) : bool :=
  match p with
  | Some _ => true
  | None => false
  end.

(** Whether member [k] of [s] holds a reference. *)
Definition holds (k : member) (s : DesktopDuplicator) : bool :=
  match k with
  | m_device => not_null (device_ s)
  | m_context => not_null (context_ s)
  | m_duplication => not_null (duplication_ s)
  | m_staging_texture => not_null (staging_texture_ s)
  end.

(** The references of member [k], followed along a log: a successful
    creating call hands the member a reference, a release takes it back.
    [None] when a reference is handed to a member that still holds one (the
    old one would leak) or taken from a member that holds none. *)
Fixpoint references (k : member) (held : bool) (log : list event) : option bool :=
  match log with
  | [] => Some held
  | e :: l =>
      let created :=
        match k, e with
        | m_device, D3D11CreateDevice hr => SUCCEEDED hr
        | m_context, D3D11CreateDevice hr => SUCCEEDED hr
        | m_duplication, DuplicateOutput hr => SUCCEEDED hr
        | m_staging_texture, CreateTexture2D hr => SUCCEEDED hr
        | _, _ => false
        end in
      let released :=
        match k, e with
        | m_device, Release_device _ => true
        | m_context, Release_context _ => true
        | m_duplication, Release_duplication _ => true
        | m_staging_texture, Release_staging_texture _ => true
        | _, _ => false
        end in
      if created then (if held then None else references k true l)
      else if released then (if held then references k false l else None)
      else references k held l
  end.

(** The number of [captureFrame] calls that answered [true]. *)
Fixpoint count_captured (cs : list api) (rs : list js_result) : Z :=
  match cs, rs with
  | c :: cs', r :: rs' =>
      (if captured c r then 1 else 0) + count_captured cs' rs'
  | _, _ => 0
  end.

(** Two objects that differ at most in a descriptor nothing reads: no
    session is set up and no staging texture exists. *)
Definition same_but_unread_desc (s1 s2 : DesktopDuplicator) : Prop :=
  device_ s1 = device_ s2 /\ context_ s1 = context_ s2 /\
  duplication_ s1 = duplication_ s2 /\
  staging_texture_ s1 = staging_texture_ s2 /\
  initialized_ s1 = initialized_ s2 /\ frame_count_ s1 = frame_count_ s2 /\
  (duplication_desc_ s1 = duplication_desc_ s2 \/
   (initialized_ s1 = false /\ staging_texture_ s1 = None)).

(** Two outcomes with the same value and log, or the same crash. *)
Definition same_observation {A} (o1 o2 : outcome A) : Prop :=
  match o1, o2 with
  | Done a1 _ l1, Done a2 _ l2 => a1 = a2 /\ l1 = l2
  | Crash l1, Crash l2 => l1 = l2
  | _, _ => False
  end.

(** The identity and description of the objects behind the members. *)
Definition session_objects (s : DesktopDuplicator) :=
  (device_ s, context_ s, option_map dupl_id (duplication_ s),
   option_map (fun t => (tex_id t, tex_Width t, tex_Height t, tex_Format t))
              (staging_texture_ s),
   duplication_desc_ s).

(** A 1920 x 1080 output at 60 Hz. *)
Definition desc_1080p : DXGI_OUTDUPL_DESC := desc_of 1920 1080.

(** The two calls that only read. *)
Definition is_query (c : api) : bool :=
  match c with
  | getTexture _ | getFrameInfo => true
  | _ => false
  end.

(** What an object without a session answers to captures and queries. *)
Definition refusals (cs : list api) : list js_result :=
  List.map (fun c => match c with
                     | captureFrame _ => throws "Not initialized" Undefined
                     | _ => returns Undefined
                     end) cs.



(** ** Proof tools *)

Ltac dd_red :=
  cbv beta iota zeta delta
      [call Initialize InitializeD3D11 CreateDuplication CaptureFrame
       GetTexture GetFrameInfo Release DesktopDuplicator_destroy
       CallbackInfo_new
       Reset_device_ Reset_context_ Reset_duplication_ Reset_staging_texture_
       duplication_ReleaseFrame bind ret get modify emit skip deref
       returns throws returned thrown captured events_of output_index_of
       set_device_ set_context_ set_duplication_ set_staging_texture_
       set_duplication_desc_ set_initialized_ set_frame_count_
       device_ context_ duplication_ staging_texture_ duplication_desc_
       initialized_ frame_count_ app negb orb andb].

Ltac dd_fields :=
  cbn [device_ context_ duplication_ staging_texture_ duplication_desc_
       initialized_ frame_count_ tex_id tex_Width tex_Height tex_Format
       tex_pixels dupl_id frame_held returned thrown] in *.

Lemma SUCCEEDED_FAILED (hr : HRESULT) : SUCCEEDED hr = negb (FAILED hr).
Proof. unfold SUCCEEDED, FAILED. apply Z.leb_antisym. Qed.

Lemma timeout_FAILED (hr : HRESULT) :
  (hr =? DXGI_ERROR_WAIT_TIMEOUT) = true -> FAILED hr = true.
Proof. intros H. apply Z.eqb_eq in H. subst hr. reflexivity. Qed.

Lemma lost_FAILED (hr : HRESULT) :
  (hr =? DXGI_ERROR_ACCESS_LOST) = true -> FAILED hr = true.
Proof. intros H. apply Z.eqb_eq in H. subst hr. reflexivity. Qed.

(** Case analysis on the next test the method makes. *)
Ltac dd_case :=
  match goal with
  | |- context [if FAILED ?hr then _ else _] => destruct (FAILED hr) eqn:?
  | |- context [if ?hr =? ?c then _ else _] =>
      let E := fresh "E" in
      destruct (hr =? c) eqn:E;
      [ try solve [exfalso; pose proof (timeout_FAILED _ E); congruence];
        try solve [exfalso; pose proof (lost_FAILED _ E); congruence] | ]
  | |- context [if ?c then _ else _] => destruct c eqn:?
  end; dd_red.

Ltac dd_go := dd_red; rewrite ?SUCCEEDED_FAILED; dd_red; repeat dd_case.

Lemma wrap64_range (x : Z) : 0 <= wrap64 x < 2 ^ 64.
Proof. unfold wrap64. apply Z.mod_pos_bound. lia. Qed.

Lemma wrap32_range (x : Z) : 0 <= wrap32 x < 2 ^ 32.
Proof. unfold wrap32. apply Z.mod_pos_bound. lia. Qed.

Lemma wrap32_small (x : Z) : 0 <= x < 2 ^ 32 -> wrap32 x = x.
Proof. intros H. unfold wrap32. apply Z.mod_small. exact H. Qed.

Lemma wrap64_small (x : Z) : 0 <= x < 2 ^ 64 -> wrap64 x = x.
Proof. intros H. unfold wrap64. apply Z.mod_small. exact H. Qed.

(** Integers below [2^53] are JavaScript numbers as they are. *)
Lemma Number_New_exact (x : Z) : x < 2 ^ 53 -> Number_New x = x.
Proof.
  intros H. unfold Number_New.
  destruct (Z.ltb_spec x (2 ^ 53)) as [_|Hge]; [reflexivity | lia].
Qed.

Lemma Number_New_UINT (x : Z) : UINT_typed x -> Number_New x = x.
Proof. intros [_ H]. apply Number_New_exact. lia. Qed.

Lemma Buffer_Copy_length (mem : Z -> Z) (n : Z) :
  0 <= n -> Z.of_nat (List.length (Buffer_Copy mem n)) = n.
Proof.
  intros H. unfold Buffer_Copy.
  rewrite length_map, length_seq. apply Z2Nat.id. exact H.
Qed.

(** ** The invariant *)

Ltac inv_solve :=
  constructor; dd_fields;
  try solve [ auto using wrap64_range | congruence | intros; discriminate
            | intros ? [= <-]; cbn; auto
            | repeat split; congruence ].

Lemma new_inv (garbage : DXGI_OUTDUPL_DESC) : inv (DesktopDuplicator_new garbage).
Proof. constructor; cbn; try discriminate. lia. Qed.

Lemma call_inv (c : api) (s : DesktopDuplicator) :
  inv s -> match call c s with Done _ s' _ => inv s' | Crash _ => True end.
Proof.
  destruct s as [dev ctx dup stg desc ini fc]. intros [H1 H2 H3 H4].
  dd_fields.
  destruct c as [info p|p|p| |]; destruct ini;
    try (destruct H1 as (Hd & Hc & Hp & Hs); [reflexivity|]);
    destruct dev as [dev|], ctx as [ctx|], dup as [dup|], stg as [stg|];
    try congruence; dd_go; try exact I; inv_solve.
  all: try (intros ? [= <-]; cbn; eapply H3; reflexivity).
Qed.

Lemma run_cons (c : api) (cs : list api) (s : DesktopDuplicator) :
  run (c :: cs) s =
  match call c s with
  | Crash l => Crash l
  | Done r s1 l1 =>
      match run cs s1 with
      | Crash l2 => Crash (l1 ++ l2)
      | Done rs s2 l2 => Done (r :: rs) s2 (l1 ++ l2)
      end
  end.
Proof.
  cbn [run]. unfold bind at 1. destruct (call c s) as [l|r s1 l1]; [reflexivity|].
  unfold bind, ret. destruct (run cs s1) as [l2|rs s2 l2]; [reflexivity|].
  rewrite app_nil_r. reflexivity.
Qed.

Lemma run_inv (cs : list api) : forall s,
  inv s -> match run cs s with Done _ s' _ => inv s' | Crash _ => True end.
Proof.
  induction cs as [|c cs IH]; intros s Hs.
  - exact Hs.
  - rewrite run_cons. pose proof (call_inv c s Hs) as Hc.
    destruct (call c s) as [l|r s1 l1]; [exact I|].
    specialize (IH s1 Hc). destruct (run cs s1); [exact I | exact IH].
Qed.

(** Every state a sequence of calls on a new object ends in. *)
Lemma reachable_inv garbage cs rs s log :
  run cs (DesktopDuplicator_new garbage) = Done rs s log -> inv s.
Proof.
  intros H. pose proof (run_inv cs _ (new_inv garbage)) as Hr.
  rewrite H in Hr. exact Hr.
Qed.

(** ** Acquire/release pairing *)

Lemma pairing_app (l1 l2 : list event) : forall held,
  pairing held (l1 ++ l2) =
  match pairing held l1 with
  | Some held' => pairing held' l2
  | None => None
  end.
Proof.
  induction l1 as [|e l1 IH]; intros held; [reflexivity|].
  destruct e; cbn [app pairing]; try apply IH.
  destruct held; [reflexivity | apply IH].
Qed.

(** One call, entered with no frame outstanding, never acquires twice and
    leaves no frame outstanding when it returns. *)
Lemma call_pairing (c : api) (s : DesktopDuplicator) :
  match call c s with
  | Done _ _ log => pairing false log = Some false
  | Crash log => pairing false log <> None
  end.
Proof.
  destruct s as [dev ctx dup stg desc ini fc].
  destruct c as [info p|p|p| |]; destruct ini;
    destruct dev as [dev|], ctx as [ctx|], dup as [dup|], stg as [stg|];
    dd_go; cbn [pairing]; rewrite ?SUCCEEDED_FAILED;
    repeat match goal with H : FAILED _ = _ |- _ => rewrite H end;
    cbn [negb]; try reflexivity; discriminate.
Qed.

Lemma run_pairing (cs : list api) : forall s,
  match run cs s with
  | Done _ _ log => pairing false log = Some false
  | Crash log => pairing false log <> None
  end.
Proof.
  induction cs as [|c cs IH]; intros s; [reflexivity|].
  rewrite run_cons. pose proof (call_pairing c s) as Hc.
  destruct (call c s) as [l|r s1 l1]; [exact Hc|].
  specialize (IH s1). destruct (run cs s1) as [l2|rs s2 l2];
    rewrite pairing_app, Hc; exact IH.
Qed.

Lemma CaptureFrame_errors (p : acquire_reply) (s : DesktopDuplicator) :
  match CaptureFrame p s with
  | Done r _ log =>
      thrown r = (if initialized_ s then None else Some "Not initialized"%string) /\
      if initialized_ s
      then exists l, log = AcquireNextFrame (acquire_hr p) :: l
      else log = []
  | Crash _ => initialized_ s = true
  end.
Proof.
  destruct s as [dev ctx dup stg desc ini fc].
  destruct ini, dev as [dev|], ctx as [ctx|], dup as [dup|], stg as [stg|];
    dd_go; dd_fields; try reflexivity; split; eauto.
Qed.

(** C1 (amended).  Along every sequence of calls on a new object, whatever
    the platform answers, [AcquireNextFrame] is never called while a frame is
    outstanding, and no frame is outstanding when the sequence returns: every
    acquisition is followed by [ReleaseFrame] inside the same [CaptureFrame],
    also when the texture query fails.  [CaptureFrame] has no guard of its
    own: the only error it raises is "Not initialized", and on an initialized
    object it always starts by calling [AcquireNextFrame]. *)
Theorem acquire_release_alternate :
  (forall garbage cs,
     match run cs (DesktopDuplicator_new garbage) with
     | Done _ s log =>
         pairing false log = Some false /\
         match duplication_ s with
         | Some d => frame_held d = false
         | None => True
         end
     | Crash log => pairing false log <> None
     end) /\
  (forall p s,
     match CaptureFrame p s with
     | Done r _ log =>
         thrown r = (if initialized_ s then None else Some "Not initialized"%string) /\
         if initialized_ s
         then exists l, log = AcquireNextFrame (acquire_hr p) :: l
         else log = []
     | Crash _ => initialized_ s = true
     end).
Proof.
  split.
  - intros garbage cs.
    pose proof (run_pairing cs (DesktopDuplicator_new garbage)) as Hp.
    pose proof (run_inv cs _ (new_inv garbage)) as Hi.
    destruct (run cs (DesktopDuplicator_new garbage)) as [l|rs s l]; [exact Hp|].
    split; [exact Hp|].
    destruct (duplication_ s) as [d|] eqn:Ed; [|exact I].
    exact (inv_released s Hi d Ed).
  - exact CaptureFrame_errors.
Qed.

(** C1, as stated, fails: with a frame outstanding, [CaptureFrame] still
    calls [AcquireNextFrame] and raises nothing.  When the platform refuses
    the call the method answers [false] as for any other failure, and when
    the platform accepts it the method answers [true]. *)
Lemma acquire_while_held_not_rejected :
  duplication_ frame_outstanding = Some {| dupl_id := 3%N; frame_held := true |} /\
  CaptureFrame invalid_call frame_outstanding =
    Done {| returned := Boolean false; thrown := None |}
         frame_outstanding
         [AcquireNextFrame DXGI_ERROR_INVALID_CALL] /\
  exists s',
    CaptureFrame frame_ready frame_outstanding =
      Done {| returned := Boolean true; thrown := None |} s'
           [AcquireNextFrame S_OK; QueryInterface_ID3D11Texture2D S_OK;
            CopyResource; ReleaseFrame].
Proof.
  split; [reflexivity|]. split; [reflexivity|].
  eexists. vm_compute. reflexivity.
Qed.

(** ** Calls on an object that is not initialized, or already is *)

Lemma CaptureFrame_uninitialized (p : acquire_reply) (s : DesktopDuplicator) :
  initialized_ s = false ->
  CaptureFrame p s = Done (throws "Not initialized" Undefined) s [].
Proof.
  destruct s as [dev ctx dup stg desc ini fc]. dd_fields.
  intros ->. reflexivity.
Qed.

(** C4.  On an object whose [initialized_] flag is clear (never initialized,
    released, or lost), [CaptureFrame] raises "Not initialized", answers
    [undefined], makes no platform call and leaves the object as it is. *)
Theorem captureFrame_requires_initialize (p : acquire_reply) (s : DesktopDuplicator) :
  initialized_ s = false ->
  CaptureFrame p s = Done (throws "Not initialized" Undefined) s [].
Proof.
  intros Hi. unfold CaptureFrame, bind, get.
  rewrite Hi. reflexivity.
Qed.

Lemma captureFrame_requires_initialize_new :
  CaptureFrame frame_ready (DesktopDuplicator_new no_desc) =
  Done {| returned := Undefined; thrown := Some "Not initialized"%string |}
       (DesktopDuplicator_new no_desc) [].
Proof.
  apply (captureFrame_requires_initialize frame_ready (DesktopDuplicator_new no_desc)).
  reflexivity.
Defined.

(** C8.  On an initialized object, [Initialize] answers [true] without an
    error, makes no platform call and leaves every member as it is. *)
Theorem initialize_idempotent
    (info : list js_value) (p : init_reply) (s : DesktopDuplicator) :
  initialized_ s = true ->
  Initialize info p s = Done (returns (Boolean true)) s [].
Proof.
  destruct s as [dev ctx dup stg desc ini fc]. dd_fields.
  intros ->. reflexivity.
Qed.

Lemma initialize_idempotent_ready :
  Initialize [JsNumber 1] (setup_no_texture (desc_of 8 8)) ready_4x2 =
  Done {| returned := Boolean true; thrown := None |} ready_4x2 [].
Proof.
  apply (initialize_idempotent [JsNumber 1] (setup_no_texture (desc_of 8 8)) ready_4x2).
  reflexivity.
Defined.

(** ** Teardown *)

Lemma Release_spec (s : DesktopDuplicator) :
  Release s = Done Undefined (torn_down s) (teardown_log s).
Proof.
  destruct s as [dev ctx dup stg desc ini fc].
  destruct dev, ctx, dup, stg; reflexivity.
Qed.


Lemma call_release (s : DesktopDuplicator) :
  call release s = Done (returns Undefined) (torn_down s) (teardown_log s).
Proof.
  cbn [call]. unfold bind. rewrite Release_spec. cbn.
  rewrite app_nil_r. reflexivity.
Qed.



(** The destructor of an object that holds a session: nothing is released
    by its body. *)
Example destructor_of_a_session :
  DesktopDuplicator_destroy one_frame_4x2 =
    Done {| returned := Undefined; thrown := Some "Invalid argument"%string |}
         one_frame_4x2 [] /\
  teardown_log one_frame_4x2 =
    [ReleaseFrame; Release_duplication 3%N; Release_staging_texture 4%N;
     Release_context 2%N; Release_device 1%N].
Proof. split; reflexivity. Qed.

(** ** The frame counter *)

(** How one call changes [frame_count_]. *)
Lemma call_frame_count_outcome (c : api) (s : DesktopDuplicator) :
  match call c s with
  | Done r s' _ =>
      frame_count_ s' =
        if captured c r then wrap64 (frame_count_ s + 1) else frame_count_ s
  | Crash _ => True
  end.
Proof.
  destruct s as [dev ctx dup stg desc ini fc].
  destruct c as [info p|p|p| |]; destruct ini;
    destruct dev as [dev|], ctx as [ctx|], dup as [dup|], stg as [stg|];
    dd_go; try exact I; reflexivity.
Qed.

Lemma call_frame_count (c : api) (s s' : DesktopDuplicator) r log :
  call c s = Done r s' log ->
  frame_count_ s' =
    if captured c r then wrap64 (frame_count_ s + 1) else frame_count_ s.
Proof.
  intros H. pose proof (call_frame_count_outcome c s) as Hc.
  rewrite H in Hc. exact Hc.
Qed.

(** A successful [Initialize] sets the flag. *)
Lemma Initialize_true info p (s s' : DesktopDuplicator) r log :
  Initialize info p s = Done r s' log ->
  returned r = Boolean true ->
  initialized_ s' = true /\ thrown r = None.
Proof.
  destruct s as [dev ctx dup stg desc ini fc].
  destruct ini; destruct dev as [dev|], ctx as [ctx|], dup as [dup|], stg as [stg|];
    dd_go; intros H; try discriminate H; injection H as <- <- <-;
    dd_fields; intros Hr; try discriminate Hr; split; reflexivity.
Qed.

(** C10.  [Release] leaves [frame_count_] as it is; so after a release and a
    successful [Initialize] on the same object, [GetFrameInfo] reports the
    count the object had before the release, not zero. *)
Theorem frame_count_survives_release
    (s s' : DesktopDuplicator) info p u r v log :
  run [release; initialize info p; getFrameInfo] s = Done [u; r; v] s' log ->
  returned r = Boolean true ->
  (exists s1 log1, Release s = Done Undefined s1 log1 /\
                   frame_count_ s1 = frame_count_ s) /\
  frame_count_ s' = frame_count_ s /\
  exists w h rate,
    returned v = FrameInfoObject w h rate (Number_New (frame_count_ s)).
Proof.
  intros Hrun Hr.
  split; [exists (torn_down s), (teardown_log s); split;
          [apply Release_spec | reflexivity]|].
  rewrite run_cons, call_release in Hrun.
  rewrite run_cons in Hrun.
  destruct (call (initialize info p) (torn_down s)) as [l|r1 s1 l1] eqn:Ei;
    [discriminate Hrun|].
  rewrite run_cons in Hrun.
  pose proof (call_frame_count _ _ _ _ _ Ei) as Hfc. cbn [captured] in Hfc.
  cbn [call] in Ei.
  destruct (call getFrameInfo s1) as [l|r2 s2 l2] eqn:Eg; [discriminate Hrun|].
  cbn [run] in Hrun. unfold ret in Hrun.
  injection Hrun as <- <- <- <- <-.
  pose proof (Initialize_true _ _ _ _ _ _ Ei Hr) as [Hini _].
  destruct s1 as [dev ctx dup stg desc ini fc]. dd_fields. subst ini.
  cbn in Eg. injection Eg as <- <- <-.
  cbn [frame_count_ torn_down] in *. subst fc.
  split; [reflexivity|]. unfold returns. dd_fields. eauto.
Qed.

Lemma frame_count_survives_release_example :
  run [release; initialize [] (setup_ok (desc_of 4 2)); getFrameInfo]
      (set_frame_count_ 7 ready_4x2) =
    Done [returns Undefined; returns (Boolean true);
          returns (FrameInfoObject 4 2 rate_60 7)]
         (set_frame_count_ 7 ready_4x2)
         (teardown_log ready_4x2 ++ setup_log) /\
  frame_count_ (set_frame_count_ 7 ready_4x2) = 7 /\
  exists w h rate,
    FrameInfoObject 4 2 rate_60 7 = FrameInfoObject w h rate (Number_New 7).
Proof.
  assert (H : run [release; initialize [] (setup_ok (desc_of 4 2)); getFrameInfo]
                  (set_frame_count_ 7 ready_4x2) =
              Done [returns Undefined; returns (Boolean true);
                    returns (FrameInfoObject 4 2 rate_60 7)]
                   (set_frame_count_ 7 ready_4x2)
                   (teardown_log ready_4x2 ++ setup_log))
    by (vm_compute; reflexivity).
  split; [exact H|].
  exact (proj2 (frame_count_survives_release _ _ _ _ _ _ _ _ H eq_refl)).
Defined.

(** ** Setup *)

(** [Initialize], case by case.  It never crashes.  On an initialized object
    it changes nothing.  Otherwise it succeeds exactly when no setup call
    fails, and then the four members are set; when a setup call fails it
    raises an error, leaves the flag clear and the counter as it was, and
    creates no staging texture. *)
Lemma Initialize_outcome info p (s : DesktopDuplicator) :
  match Initialize info p s with
  | Crash _ => False
  | Done r s' log =>
      if initialized_ s
      then r = returns (Boolean true) /\ s' = s /\ log = []
      else if setup_fails info p
      then returned r = Boolean false /\
           (exists msg, thrown r = Some msg) /\
           initialized_ s' = false /\
           frame_count_ s' = frame_count_ s /\
           (staging_texture_ s' = None \/
            staging_texture_ s' = staging_texture_ s)
      else r = returns (Boolean true) /\
           initialized_ s' = true /\
           frame_count_ s' = frame_count_ s /\
           device_ s' = Some (new_device p) /\
           context_ s' = Some (new_context p) /\
           duplication_ s' =
             Some {| dupl_id := new_duplication p; frame_held := false |} /\
           duplication_desc_ s' = got_desc p /\
           staging_texture_ s' =
             Some {| tex_id := new_texture p;
                     tex_Width := Width (ModeDesc (got_desc p));
                     tex_Height := Height (ModeDesc (got_desc p));
                     tex_Format := Format (ModeDesc (got_desc p));
                     tex_pixels := new_texture_pixels p |}
  end.
Proof.
  destruct s as [dev ctx dup stg desc ini fc]. unfold setup_fails.
  destruct ini; destruct dev as [dev|], ctx as [ctx|], dup as [dup|], stg as [stg|];
    dd_go; cbn [orb]; dd_fields; repeat split; eauto.
Qed.

Lemma GetFrameInfo_uninitialized (s : DesktopDuplicator) :
  initialized_ s = false -> GetFrameInfo s = Done Undefined s [].
Proof.
  destruct s as [dev ctx dup stg desc ini fc]. dd_fields.
  intros ->. reflexivity.
Qed.

Lemma GetFrameInfo_initialized (s : DesktopDuplicator) :
  initialized_ s = true ->
  GetFrameInfo s =
  Done (FrameInfoObject
          (Number_New (Width (ModeDesc (duplication_desc_ s))))
          (Number_New (Height (ModeDesc (duplication_desc_ s))))
          (RefreshRate (ModeDesc (duplication_desc_ s)))
          (Number_New (frame_count_ s))) s [].
Proof.
  destruct s as [dev ctx dup stg desc ini fc]. dd_fields.
  intros ->. reflexivity.
Qed.

Lemma GetTexture_no_staging (m : map_reply) (s : DesktopDuplicator) :
  staging_texture_ s = None -> GetTexture m s = Done Undefined s [].
Proof.
  destruct s as [dev ctx dup stg desc ini fc]. dd_fields.
  intros ->. reflexivity.
Qed.




(** ** Loss of the duplication and recovery *)

Lemma inv_mappable (s : DesktopDuplicator) :
  inv s -> initialized_ s = true -> mappable s.
Proof. intros Hi Hr _. apply (inv_ready s Hi Hr). Qed.

Lemma inv_is_ready (s : DesktopDuplicator) :
  inv s -> initialized_ s = true -> ready s.
Proof.
  intros Hi Hr. destruct (inv_ready s Hi Hr) as (_ & Hc & Hd & _).
  repeat split; assumption.
Qed.

(** The fatal error: the method answers [false] and clears the flag, and
    touches nothing else. *)
Lemma CaptureFrame_lost (p : acquire_reply) (s : DesktopDuplicator) :
  ready s ->
  acquire_hr p = DXGI_ERROR_ACCESS_LOST ->
  CaptureFrame p s =
  Done (returns (Boolean false)) (set_initialized_ false s)
       [AcquireNextFrame DXGI_ERROR_ACCESS_LOST].
Proof.
  destruct s as [dev ctx dup stg desc ini fc]. intros (Hi & Hd & Hc) Hp.
  dd_fields. subst ini.
  destruct dup as [dup|]; [|congruence]. destruct ctx as [ctx|]; [|congruence].
  unfold CaptureFrame. rewrite Hp. reflexivity.
Qed.

(** A capture the platform serves: the method answers [true] and counts. *)
Lemma CaptureFrame_served (q : acquire_reply) (s : DesktopDuplicator) :
  ready s ->
  SUCCEEDED (acquire_hr q) = true ->
  SUCCEEDED (texture_qi_hr q) = true ->
  exists s' log,
    CaptureFrame q s = Done (returns (Boolean true)) s' log /\
    ready s' /\
    frame_count_ s' = wrap64 (frame_count_ s + 1) /\
    forall t, staging_texture_ s' = Some t -> tex_pixels t = desktop_image q.
Proof.
  destruct s as [dev ctx dup stg desc ini fc]. intros (Hi & Hd & Hc) Ha Hq.
  dd_fields. subst ini.
  destruct dup as [dup|]; [|congruence]. destruct ctx as [ctx|]; [|congruence].
  rewrite SUCCEEDED_FAILED in Ha, Hq.
  apply negb_true_iff in Ha. apply negb_true_iff in Hq.
  destruct stg as [stg|]; dd_go; try congruence;
    eexists _, _; (split; [reflexivity|]); unfold ready; dd_fields;
    repeat split; try congruence; try discriminate.
  intros t [= <-]. reflexivity.
Qed.

(** Calls other than [initialize] never set the flag, and never crash when a
    context is there for the texture. *)
Lemma call_stays_uninitialized (c : api) (s : DesktopDuplicator) :
  is_initialize c = false ->
  initialized_ s = false -> mappable s ->
  match call c s with
  | Crash _ => False
  | Done _ s' _ => initialized_ s' = false /\ mappable s'
  end.
Proof.
  destruct s as [dev ctx dup stg desc ini fc]. unfold mappable. dd_fields.
  intros Hc -> Hm.
  destruct c as [info p|p|p| |]; try discriminate Hc;
    destruct dev as [dev|], ctx as [ctx|], dup as [dup|], stg as [stg|];
    dd_go; dd_fields; try (split; [reflexivity|]); try congruence;
    try (apply Hm; discriminate).
  all: apply Hm; [discriminate | reflexivity].
Qed.

Lemma run_stays_uninitialized (cs : list api) : forall s,
  forallb (fun c => negb (is_initialize c)) cs = true ->
  initialized_ s = false -> mappable s ->
  exists rs s' log,
    run cs s = Done rs s' log /\ initialized_ s' = false /\ mappable s'.
Proof.
  induction cs as [|c cs IH]; intros s Hcs Hi Hm.
  - exists [], s, []. repeat split; assumption.
  - cbn [forallb] in Hcs. apply andb_true_iff in Hcs as [Hc Hcs].
    apply negb_true_iff in Hc.
    pose proof (call_stays_uninitialized c s Hc Hi Hm) as H1.
    rewrite run_cons. destruct (call c s) as [l|r s1 l1]; [contradiction|].
    destruct H1 as [Hi1 Hm1].
    destruct (IH s1 Hcs Hi1 Hm1) as (rs & s2 & l2 & -> & Hi2 & Hm2).
    eexists _, _, _. repeat split; assumption.
Qed.

(** Queries and captures leave an object that is not initialized as it is. *)
Lemma call_without_session (c : api) (s : DesktopDuplicator) :
  is_query_or_capture c = true ->
  initialized_ s = false -> mappable s ->
  exists r log, call c s = Done r s log.
Proof.
  destruct s as [dev ctx dup stg desc ini fc]. unfold mappable. dd_fields.
  intros Hc -> Hm.
  destruct c as [info p|p|p| |]; try discriminate Hc;
    destruct ctx as [ctx|], stg as [stg|];
    dd_go; eauto.
  all: exfalso; apply Hm; [discriminate | reflexivity].
Qed.

Lemma run_without_session (cs : list api) (s : DesktopDuplicator) :
  forallb is_query_or_capture cs = true ->
  initialized_ s = false -> mappable s ->
  exists rs log, run cs s = Done rs s log.
Proof.
  intros Hcs Hi Hm. induction cs as [|c cs IH].
  - exists [], []. reflexivity.
  - cbn [forallb] in Hcs. apply andb_true_iff in Hcs as [Hc Hcs].
    destruct (call_without_session c s Hc Hi Hm) as (r & l1 & E1).
    destruct (IH Hcs) as (rs & l2 & E2).
    rewrite run_cons, E1, E2. eauto.
Qed.

(** [GetTexture] looks at the staging texture only. *)
Lemma GetTexture_mapped (m : map_reply) (s : DesktopDuplicator) t :
  staging_texture_ s = Some t ->
  context_ s <> None ->
  FAILED (map_hr m) = false ->
  GetTexture m s =
  Done (texture_object t (duplication_desc_ s) m) s [Map (map_hr m); Unmap].
Proof.
  destruct s as [dev ctx dup stg desc ini fc]. dd_fields.
  intros -> Hc Hm. destruct ctx as [ctx|]; [|congruence].
  unfold GetTexture, texture_object. dd_red. rewrite Hm. reflexivity.
Qed.

Lemma release_initialize (s s3 : DesktopDuplicator) info p ru ri log :
  run [release; initialize info p] s = Done [ru; ri] s3 log ->
  returned ri = Boolean true ->
  ready s3 /\ frame_count_ s3 = frame_count_ s.
Proof.
  intros Hrun Hr. rewrite run_cons, call_release, run_cons in Hrun.
  cbn [call] in Hrun.
  pose proof (Initialize_outcome info p (torn_down s)) as Ho.
  destruct (Initialize info p (torn_down s)) as [l|r s1 l1]; [contradiction|].
  cbn [run] in Hrun. unfold ret in Hrun. injection Hrun as <- <- <- <-.
  cbn [initialized_ torn_down] in Ho.
  destruct (setup_fails info p).
  - destruct Ho as (Hf & _). congruence.
  - destruct Ho as (_ & Hi & Hc & _ & Hx & Hd & _).
    unfold ready. rewrite Hi, Hx, Hd. repeat split; try discriminate.
    exact Hc.
Qed.

(** Once the flag is clear, an [Initialize] that answers [true] gives a
    session on which captures go through, whether [Release] was called
    before or not. *)
Lemma Initialize_restores info p (s s' : DesktopDuplicator) r log :
  initialized_ s = false ->
  Initialize info p s = Done r s' log ->
  returned r = Boolean true ->
  ready s' /\ frame_count_ s' = frame_count_ s.
Proof.
  intros Hi Hrun Hr.
  pose proof (Initialize_outcome info p s) as Ho.
  rewrite Hrun, Hi in Ho.
  destruct (setup_fails info p).
  - destruct Ho as (Hf & _). congruence.
  - destruct Ho as (_ & Hi' & Hc & _ & Hx & Hd & _).
    unfold ready. rewrite Hi', Hx, Hd. repeat split; try discriminate.
    exact Hc.
Qed.

(** C2 (amended).  In a session set up by calls on a new object, an
    acquisition that fails with [DXGI_ERROR_ACCESS_LOST] makes [CaptureFrame]
    answer [false] and clear [initialized_].  From then on [GetFrameInfo]
    answers [undefined] after any calls among which there is no
    [initialize], [release] included.  An [initialize] that succeeds brings
    the session back, with or without a [release] before it: [GetFrameInfo]
    answers an object again and a capture the platform serves answers [true]
    and counts; in particular this holds after [release] and a successful
    [initialize]. *)
Theorem access_lost_needs_reinitialize
    garbage cs rs (s : DesktopDuplicator) log (p : acquire_reply) :
  run cs (DesktopDuplicator_new garbage) = Done rs s log ->
  initialized_ s = true ->
  acquire_hr p = DXGI_ERROR_ACCESS_LOST ->
  exists s1,
    CaptureFrame p s =
      Done (returns (Boolean false)) s1 [AcquireNextFrame DXGI_ERROR_ACCESS_LOST] /\
    initialized_ s1 = false /\
    (forall cs',
       forallb (fun c => negb (is_initialize c)) cs' = true ->
       exists rs' s2 log',
         run cs' s1 = Done rs' s2 log' /\
         initialized_ s2 = false /\
         GetFrameInfo s2 = Done Undefined s2 []) /\
    (forall s2 info pi ri s3 log3 q,
       initialized_ s2 = false ->
       Initialize info pi s2 = Done ri s3 log3 ->
       returned ri = Boolean true ->
       SUCCEEDED (acquire_hr q) = true ->
       SUCCEEDED (texture_qi_hr q) = true ->
       (exists w h rate,
          GetFrameInfo s3 =
            Done (FrameInfoObject w h rate (reported_frameCount s3)) s3 []) /\
       exists s4 log4,
         CaptureFrame q s3 = Done (returns (Boolean true)) s4 log4 /\
         initialized_ s4 = true /\
         frame_count_ s4 = wrap64 (frame_count_ s3 + 1)) /\
    (forall s2 info pi ru ri s3 log3 q,
       run [release; initialize info pi] s2 = Done [ru; ri] s3 log3 ->
       returned ri = Boolean true ->
       SUCCEEDED (acquire_hr q) = true ->
       SUCCEEDED (texture_qi_hr q) = true ->
       (exists w h rate,
          GetFrameInfo s3 =
            Done (FrameInfoObject w h rate (reported_frameCount s3)) s3 []) /\
       exists s4 log4,
         CaptureFrame q s3 = Done (returns (Boolean true)) s4 log4 /\
         initialized_ s4 = true /\
         frame_count_ s4 = wrap64 (frame_count_ s3 + 1)).
Proof.
  intros Hrun Hi Hp.
  pose proof (reachable_inv _ _ _ _ _ Hrun) as Hinv.
  assert (Hresume : forall s3 q, ready s3 ->
            SUCCEEDED (acquire_hr q) = true ->
            SUCCEEDED (texture_qi_hr q) = true ->
            (exists w h rate,
               GetFrameInfo s3 =
                 Done (FrameInfoObject w h rate (reported_frameCount s3)) s3 []) /\
            exists s4 log4,
              CaptureFrame q s3 = Done (returns (Boolean true)) s4 log4 /\
              initialized_ s4 = true /\
              frame_count_ s4 = wrap64 (frame_count_ s3 + 1)).
  { intros s3 q Hready Ha Hq. split.
    - eexists _, _, _. apply GetFrameInfo_initialized. apply Hready.
    - destruct (CaptureFrame_served q s3 Hready Ha Hq)
        as (s4 & log4 & Hc & Hr4 & Hn & _).
      exists s4, log4. split; [exact Hc|]. split; [apply Hr4 | exact Hn]. }
  exists (set_initialized_ false s).
  split; [apply CaptureFrame_lost; [apply inv_is_ready|]; assumption|].
  split; [reflexivity|]. split; [|split].
  - intros cs' Hcs.
    destruct (run_stays_uninitialized cs' (set_initialized_ false s) Hcs eq_refl)
      as (rs' & s2 & log' & Hr & Hi2 & _).
    { exact (inv_mappable s Hinv Hi). }
    exists rs', s2, log'. split; [exact Hr|]. split; [exact Hi2|].
    apply GetFrameInfo_uninitialized. exact Hi2.
  - intros s2 info pi ri s3 log3 q Hi2 Hr Htrue Ha Hq.
    destruct (Initialize_restores _ _ _ _ _ _ Hi2 Hr Htrue) as [Hready _].
    apply Hresume; assumption.
  - intros s2 info pi ru ri s3 log3 q Hr Htrue Ha Hq.
    destruct (release_initialize _ _ _ _ _ _ _ Hr Htrue) as [Hready _].
    apply Hresume; assumption.
Qed.

Lemma access_lost_example :
  run [initialize [] (setup_ok (desc_of 4 2)); captureFrame frame_ready]
      (DesktopDuplicator_new no_desc) =
    Done [returns (Boolean true); returns (Boolean true)] one_frame_4x2
         (setup_log ++ capture_log) /\
  initialized_ one_frame_4x2 = true /\
  acquire_hr access_lost = DXGI_ERROR_ACCESS_LOST /\
  exists s1,
    CaptureFrame access_lost one_frame_4x2 =
      Done (returns (Boolean false)) s1 [AcquireNextFrame DXGI_ERROR_ACCESS_LOST] /\
    initialized_ s1 = false.
Proof.
  assert (H : run [initialize [] (setup_ok (desc_of 4 2)); captureFrame frame_ready]
                  (DesktopDuplicator_new no_desc) =
              Done [returns (Boolean true); returns (Boolean true)] one_frame_4x2
                   (setup_log ++ capture_log))
    by (vm_compute; reflexivity).
  split; [exact H|]. split; [reflexivity|]. split; [reflexivity|].
  destruct (access_lost_needs_reinitialize _ _ _ _ _ access_lost H eq_refl eq_refl)
    as (s1 & H1 & H2 & _).
  exists s1. split; assumption.
Defined.

(** C2, as stated, fails: after the fatal error an [initialize] that
    succeeds brings the session back although [release] was never called, and
    [GetFrameInfo] answers an object. *)
Lemma getFrameInfo_defined_without_release :
  exists s log,
    run [initialize [] (setup_ok (desc_of 4 2));
         captureFrame frame_ready;
         captureFrame access_lost;
         getFrameInfo;
         initialize [] (setup_ok (desc_of 4 2));
         getFrameInfo]
        (DesktopDuplicator_new no_desc) =
    Done [returns (Boolean true);
          returns (Boolean true);
          returns (Boolean false);
          returns Undefined;
          returns (Boolean true);
          returns (FrameInfoObject 4 2 rate_60 1)] s log.
Proof. eexists _, _. vm_compute. reflexivity. Qed.

(** ** The staging texture outlives the session *)

Lemma GetTexture_flag_blind (m : map_reply) (s : DesktopDuplicator) (b : bool) :
  GetTexture m (set_initialized_ b s) =
  match GetTexture m s with
  | Done v s' l => Done v (set_initialized_ b s') l
  | Crash l => Crash l
  end.
Proof.
  destruct s as [dev ctx dup stg desc ini fc].
  destruct stg as [stg|], ctx as [ctx|]; dd_go; reflexivity.
Qed.

Lemma CaptureFrame_true_pixels (q : acquire_reply) (s0 s : DesktopDuplicator) r lg :
  CaptureFrame q s0 = Done r s lg ->
  returned r = Boolean true ->
  forall t, staging_texture_ s = Some t -> tex_pixels t = desktop_image q.
Proof.
  destruct s0 as [dev ctx dup stg desc ini fc].
  destruct ini, dup as [dup|], stg as [stg|], ctx as [ctx|];
    dd_go; intros H; try discriminate H; injection H as <- <- <-;
    dd_fields; intros Hr; try discriminate Hr;
    intros t Ht; try discriminate Ht; injection Ht as <-; reflexivity.
Qed.

(** C9 (amended).  [GetTexture] does not look at [initialized_].  After the
    fatal acquisition error in a session set up by calls on a new object, and
    after any further calls of [captureFrame], [getTexture] and
    [getFrameInfo] (so before [release] or [initialize] is called),
    [GetFrameInfo] answers [undefined] while [GetTexture], when the mapping
    succeeds, still answers the bytes and the dimensions it answered before
    the error: those of the staging texture, which holds the frame of the
    last capture that answered [true]. *)
Theorem getTexture_survives_access_lost :
  (forall m s b,
     GetTexture m (set_initialized_ b s) =
     match GetTexture m s with
     | Done v s' l => Done v (set_initialized_ b s') l
     | Crash l => Crash l
     end) /\
  (forall garbage cs rs (s : DesktopDuplicator) log (p : acquire_reply) (m : map_reply),
     run cs (DesktopDuplicator_new garbage) = Done rs s log ->
     initialized_ s = true ->
     acquire_hr p = DXGI_ERROR_ACCESS_LOST ->
     SUCCEEDED (map_hr m) = true ->
     exists s1 t,
       CaptureFrame p s =
         Done (returns (Boolean false)) s1 [AcquireNextFrame DXGI_ERROR_ACCESS_LOST] /\
       staging_texture_ s = Some t /\
       GetTexture m s =
         Done (texture_object t (duplication_desc_ s) m) s [Map (map_hr m); Unmap] /\
       (forall s0 q r lg,
          CaptureFrame q s0 = Done r s lg -> returned r = Boolean true ->
          tex_pixels t = desktop_image q) /\
       (forall cs',
          forallb is_query_or_capture cs' = true ->
          exists rs' log',
            run cs' s1 = Done rs' s1 log' /\
            GetFrameInfo s1 = Done Undefined s1 [] /\
            GetTexture m s1 =
              Done (texture_object t (duplication_desc_ s) m) s1
                   [Map (map_hr m); Unmap])).
Proof.
  split; [exact GetTexture_flag_blind|].
  intros garbage cs rs s log p m Hrun Hi Hp Hm.
  pose proof (reachable_inv _ _ _ _ _ Hrun) as Hinv.
  rewrite SUCCEEDED_FAILED in Hm. apply negb_true_iff in Hm.
  destruct (inv_ready s Hinv Hi) as (_ & Hc & _ & Hs).
  destruct (staging_texture_ s) as [t|] eqn:Et; [|congruence].
  exists (set_initialized_ false s), t.
  split; [apply CaptureFrame_lost; [apply inv_is_ready|]; assumption|].
  split; [reflexivity|].
  split; [apply GetTexture_mapped; assumption|].
  split.
  - intros s0 q r lg Hq Hr.
    apply (CaptureFrame_true_pixels q s0 s r lg Hq Hr). exact Et.
  - intros cs' Hcs.
    destruct (run_without_session cs' (set_initialized_ false s) Hcs eq_refl)
      as (rs' & log' & Hr).
    { exact (inv_mappable s Hinv Hi). }
    exists rs', log'. split; [exact Hr|].
    split; [reflexivity|].
    rewrite GetTexture_flag_blind, (GetTexture_mapped m s t Et Hc Hm).
    reflexivity.
Qed.

Lemma getTexture_survives_access_lost_example :
  run [initialize [] (setup_ok (desc_of 4 2)); captureFrame frame_ready]
      (DesktopDuplicator_new no_desc) =
    Done [returns (Boolean true); returns (Boolean true)] one_frame_4x2
         (setup_log ++ capture_log) /\
  initialized_ one_frame_4x2 = true /\
  acquire_hr access_lost = DXGI_ERROR_ACCESS_LOST /\
  SUCCEEDED (map_hr (mapped 16)) = true /\
  exists s1 t,
    CaptureFrame access_lost one_frame_4x2 =
      Done (returns (Boolean false)) s1 [AcquireNextFrame DXGI_ERROR_ACCESS_LOST] /\
    GetFrameInfo s1 = Done Undefined s1 [] /\
    GetTexture (mapped 16) s1 =
      Done (texture_object t (desc_of 4 2) (mapped 16)) s1 [Map S_OK; Unmap].
Proof.
  assert (H : run [initialize [] (setup_ok (desc_of 4 2)); captureFrame frame_ready]
                  (DesktopDuplicator_new no_desc) =
              Done [returns (Boolean true); returns (Boolean true)] one_frame_4x2
                   (setup_log ++ capture_log))
    by (vm_compute; reflexivity).
  split; [exact H|]. split; [reflexivity|]. split; [reflexivity|].
  split; [reflexivity|].
  destruct (proj2 getTexture_survives_access_lost _ _ _ _ _ access_lost (mapped 16)
              H eq_refl eq_refl eq_refl)
    as (s1 & t & H1 & _ & _ & _ & H5).
  destruct (H5 [] eq_refl) as (_ & _ & _ & H6 & H7).
  exists s1, t. repeat split; assumption.
Defined.

(** C9, as stated, fails: [release] is not the only call that ends it.
    After the fatal error an [initialize] creates a new staging texture, or
    leaves none when the creation fails; [GetTexture] then answers
    [undefined], or the bytes of the new texture, not the last copied
    frame. *)
Lemma getTexture_after_reinitialize :
  (exists s log,
     run [initialize [] (setup_ok (desc_of 4 2));
          captureFrame frame_ready;
          getTexture (mapped 16);
          captureFrame access_lost;
          initialize [] (setup_no_texture (desc_of 4 2));
          getFrameInfo;
          getTexture (mapped 16)]
         (DesktopDuplicator_new no_desc) =
     Done [returns (Boolean true);
           returns (Boolean true);
           returns (TextureObject (Buffer_Copy (gradient 16) 32) 4 2 16);
           returns (Boolean false);
           throws "Failed to create desktop duplication" (Boolean false);
           returns Undefined;
           returns Undefined] s log) /\
  (exists s log,
     run [initialize [] (setup_ok (desc_of 4 2));
          captureFrame frame_ready;
          getTexture (mapped 16);
          captureFrame access_lost;
          initialize [] (setup_ok (desc_of 4 2));
          getTexture (mapped 16)]
         (DesktopDuplicator_new no_desc) =
     Done [returns (Boolean true);
           returns (Boolean true);
           returns (TextureObject (Buffer_Copy (gradient 16) 32) 4 2 16);
           returns (Boolean false);
           returns (Boolean true);
           returns (TextureObject (Buffer_Copy (blank 16) 32) 4 2 16)] s log) /\
  Buffer_Copy (blank 16) 32 <> Buffer_Copy (gradient 16) 32.
Proof.
  split; [eexists _, _; vm_compute; reflexivity|].
  split; [eexists _, _; vm_compute; reflexivity|].
  vm_compute. discriminate.
Qed.

(** ** Rounding of the counter to a JavaScript number *)

Lemma Number_New_grid x :
  2 ^ 53 <= x -> Number_New x = round_grid (2 ^ (Z.log2 x - 53)) x.
Proof.
  intros Hx. unfold Number_New, round_grid.
  destruct (Z.ltb_spec x (2 ^ 53)) as [?|_]; [lia|].
  assert (Hk : 53 <= Z.log2 x) by (apply Z.log2_le_pow2; lia).
  cbv zeta.
  replace (Z.log2 x - 52 - 1) with (Z.log2 x - 53) by lia.
  assert (HP : 2 ^ (Z.log2 x - 52) = 2 * 2 ^ (Z.log2 x - 53)).
  { replace (Z.log2 x - 52) with (Z.succ (Z.log2 x - 53)) by lia.
    apply Z.pow_succ_r. lia. }
  rewrite Z.shiftr_div_pow2 by lia.
  rewrite !Z.shiftl_mul_pow2 by lia.
  rewrite HP.
  set (P := 2 * 2 ^ (Z.log2 x - 53)).
  assert (Hr : x - x / P * P = x mod P).
  { rewrite Z.mod_eq; [lia|]. unfold P. pose proof (Z.pow_pos_nonneg 2 (Z.log2 x - 53)). lia. }
  rewrite Hr. reflexivity.
Qed.

Lemma round_grid_mono_succ half x :
  0 < half -> 0 <= x -> round_grid half x <= round_grid half (x + 1).
Proof.
  intros Hh Hx. unfold round_grid. cbv zeta.
  set (P := 2 * half).
  assert (HP : 0 < P) by (unfold P; lia).
  pose proof (Z.div_mod x P ltac:(lia)) as Hd.
  pose proof (Z.mod_pos_bound x P HP) as Hm.
  pose proof (Z.div_mod (x + 1) P ltac:(lia)) as Hd'.
  pose proof (Z.mod_pos_bound (x + 1) P HP) as Hm'.
  set (q := x / P) in *. set (r := x mod P) in *.
  set (q' := (x + 1) / P) in *. set (r' := (x + 1) mod P) in *.
  assert (Hcases : (q' = q /\ r' = r + 1) \/ (q' = q + 1 /\ r' = 0 /\ r = P - 1)).
  { destruct (Z.eq_dec r (P - 1)).
    - right.
      assert (E : x + 1 = P * (q + 1) + 0) by lia.
      assert (B : 0 <= 0 < P \/ P < 0 <= 0) by lia.
      pose proof (Z.div_unique (x + 1) P (q + 1) 0 B E).
      pose proof (Z.mod_unique (x + 1) P (q + 1) 0 B E).
      unfold q', r'. lia.
    - left.
      assert (E : x + 1 = P * q + (r + 1)) by lia.
      assert (B : 0 <= r + 1 < P \/ P < r + 1 <= 0) by lia.
      pose proof (Z.div_unique (x + 1) P q (r + 1) B E).
      pose proof (Z.mod_unique (x + 1) P q (r + 1) B E).
      unfold q', r'. lia. }
  destruct Hcases as [[-> ->]|(-> & -> & Hr)].
  - destruct (Z.ltb_spec r half), (Z.ltb_spec half r), (Z.ltb_spec (r+1) half), (Z.ltb_spec half (r+1)), (Z.even q); try lia; nia.
  - destruct (Z.ltb_spec r half), (Z.ltb_spec half r), (Z.ltb_spec 0 half), (Z.ltb_spec half 0);
      try lia; destruct (Z.even q); nia.
Qed.

Lemma round_grid_upper half x :
  0 < half -> round_grid half x <= (x / (2 * half) + 1) * (2 * half).
Proof.
  intros Hh. unfold round_grid. cbv zeta.
  set (P := 2 * half). set (q := x / P).
  destruct (x mod P <? half); [nia|].
  destruct (half <? x mod P); [lia|].
  destruct (Z.even q); nia.
Qed.

Lemma round_grid_multiple half x :
  0 < half -> x mod (2 * half) = 0 -> round_grid half x = x.
Proof.
  intros Hh Hm. unfold round_grid. cbv zeta. rewrite Hm.
  destruct (Z.ltb_spec 0 half) as [_|?]; [|lia].
  pose proof (Z.div_mod x (2 * half) ltac:(lia)). lia.
Qed.

Lemma Number_New_mono_succ x : 0 <= x -> Number_New x <= Number_New (x + 1).
Proof.
  intros Hx.
  destruct (Z_lt_le_dec (x + 1) (2 ^ 53)) as [Hs|Hs].
  - rewrite !Number_New_exact by lia. lia.
  - destruct (Z.eq_dec (x + 1) (2 ^ 53)) as [E|E].
    + rewrite E. rewrite Number_New_exact by lia.
      change (Number_New (2 ^ 53)) with (2 ^ 53). lia.
    + assert (H53 : 2 ^ 53 <= x) by lia.
      rewrite !Number_New_grid by lia.
      assert (Hk : 53 <= Z.log2 x) by (apply Z.log2_le_pow2; lia).
      destruct (Z.log2_succ_or x) as [Hl|Hl].
      * (* x + 1 is a power of two *)
        pose proof (Z.log2_eq_succ_is_pow2 x Hl) as [b Hb].
        assert (Hb0 : 0 <= b).
        { destruct (Z_lt_le_dec b 0) as [Hneg|]; [|assumption].
          rewrite (Z.pow_neg_r 2 b Hneg) in Hb. lia. }
        assert (Hbk : b = Z.succ (Z.log2 x)).
        { rewrite <- Hl, Hb. symmetry. apply Z.log2_pow2. exact Hb0. }
        rewrite Z.add_1_r, Hl.
        set (k := Z.log2 x) in *.
        assert (Hpow : Z.succ x = 2 ^ 53 * (2 * 2 ^ (k - 53))).
        { rewrite Hb, Hbk. replace (Z.succ k) with (53 + (1 + (k - 53))) by lia.
          rewrite !Z.pow_add_r by lia. reflexivity. }
        assert (Hh : 0 < 2 ^ (k - 53)) by (apply Z.pow_pos_nonneg; lia).
        assert (Hh' : 0 < 2 ^ (Z.succ k - 53)) by (apply Z.pow_pos_nonneg; lia).
        rewrite (round_grid_multiple (2 ^ (Z.succ k - 53)) (Z.succ x)); [|exact Hh'|].
        -- eapply Z.le_trans; [apply round_grid_upper; exact Hh|].
           set (P := 2 * 2 ^ (k - 53)) in *.
           assert (Hq : 2 ^ 53 - 1 = x / P).
           { apply (Z.div_unique x P (2 ^ 53 - 1) (P - 1)); lia. }
           rewrite <- Hq. lia.
        -- replace (Z.succ k - 53) with (Z.succ (k - 53)) by lia.
           rewrite Z.pow_succ_r by lia.
           rewrite Hpow. 
           replace (2 ^ 53 * (2 * 2 ^ (k - 53))) with (2 ^ 52 * (2 * (2 * 2 ^ (k - 53))))
             by (change (2 ^ 53) with (2 ^ 52 * 2); ring).
           apply Z.mod_mul. lia.
      * rewrite Z.add_1_r, Hl, <- Z.add_1_r.
        apply round_grid_mono_succ; [apply Z.pow_pos_nonneg; lia | lia].
Qed.

(** ** The reported frame count *)

Lemma call_served (q : acquire_reply) (s : DesktopDuplicator) :
  ready s ->
  SUCCEEDED (acquire_hr q) = true ->
  SUCCEEDED (texture_qi_hr q) = true ->
  exists s' log,
    call (captureFrame q) s = Done (returns (Boolean true)) s' log /\
    ready s' /\
    frame_count_ s' = wrap64 (frame_count_ s + 1).
Proof.
  intros Hr Ha Hq.
  destruct (CaptureFrame_served q s Hr Ha Hq) as (s' & log & H & Hr' & Hc & _).
  exists s', log. split; [exact H|]. split; [exact Hr' | exact Hc].
Qed.

Lemma wrap64_succ (x n : Z) :
  wrap64 (wrap64 (x + 1) + n) = wrap64 (x + (1 + n)).
Proof.
  unfold wrap64. rewrite Zplus_mod_idemp_l. f_equal. lia.
Qed.

(** [n] served captures in a row count [n] frames, modulo [2^64]. *)
Lemma run_served (q : acquire_reply) (n : nat) : forall s,
  ready s ->
  0 <= frame_count_ s < 2 ^ 64 ->
  SUCCEEDED (acquire_hr q) = true ->
  SUCCEEDED (texture_qi_hr q) = true ->
  exists rs s' log,
    run (repeat (captureFrame q) n) s = Done rs s' log /\
    ready s' /\
    frame_count_ s' = wrap64 (frame_count_ s + Z.of_nat n).
Proof.
  induction n as [|n IH]; intros s Hr Hc Ha Hq.
  - exists [], s, []. split; [reflexivity|]. split; [exact Hr|].
    rewrite Z.add_0_r, wrap64_small; [reflexivity | exact Hc].
  - destruct (call_served q s Hr Ha Hq) as (s1 & l1 & H1 & Hr1 & Hc1).
    destruct (IH s1 Hr1) as (rs & s2 & l2 & H2 & Hr2 & Hc2);
      [rewrite Hc1; apply wrap64_range | exact Ha | exact Hq |].
    exists (returns (Boolean true) :: rs), s2, (l1 ++ l2).
    split; [|split; [exact Hr2|]].
    + change (repeat (captureFrame q) (S n))
        with (captureFrame q :: repeat (captureFrame q) n).
      rewrite run_cons, H1, H2. reflexivity.
    + rewrite Hc2, Hc1, wrap64_succ. f_equal. lia.
Qed.

(** C3 (amended).  Along every sequence of calls on a new object, a call
    changes [frame_count_] only when it is a [captureFrame] that answers
    [true], and then by one, modulo [2^64]: not on a timeout, not on a
    failure of the acquisition, fatal or not, and not when the texture query
    fails.  While the counter is below [2^53], the [frameCount] that
    [GetFrameInfo] reports is the counter itself and goes up by exactly one on
    exactly those calls; and it never decreases as long as the counter does
    not wrap around, that is while it is below [2^64 - 1]. *)
Theorem frameCount_counts_captures
    garbage cs rs (s s' : DesktopDuplicator) log (c : api) r log' :
  run cs (DesktopDuplicator_new garbage) = Done rs s log ->
  call c s = Done r s' log' ->
  frame_count_ s' =
    (if captured c r then wrap64 (frame_count_ s + 1) else frame_count_ s) /\
  (frame_count_ s < 2 ^ 53 ->
   reported_frameCount s' =
     if captured c r then reported_frameCount s + 1 else reported_frameCount s) /\
  (frame_count_ s < 2 ^ 64 - 1 ->
   reported_frameCount s <= reported_frameCount s').
Proof.
  intros Hrun Hcall.
  pose proof (inv_count s (reachable_inv _ _ _ _ _ Hrun)) as [H0 _].
  pose proof (call_frame_count c s s' r log' Hcall) as Hfc.
  split; [exact Hfc|]. unfold reported_frameCount. rewrite Hfc. split.
  - intros Hlt. rewrite (Number_New_exact (frame_count_ s) Hlt).
    destruct (captured c r); [|apply Number_New_exact; exact Hlt].
    rewrite wrap64_small by lia.
    destruct (Z.eq_dec (frame_count_ s + 1) (2 ^ 53)) as [E|E].
    + rewrite E. reflexivity.
    + apply Number_New_exact. lia.
  - intros Hlt. destruct (captured c r); [|lia].
    rewrite wrap64_small by lia.
    apply Number_New_mono_succ. exact H0.
Qed.

Lemma frameCount_counts_captures_example :
  run [initialize [] (setup_ok (desc_of 4 2))] (DesktopDuplicator_new no_desc) =
    Done [returns (Boolean true)] ready_4x2 setup_log /\
  call (captureFrame frame_ready) ready_4x2 =
    Done (returns (Boolean true)) one_frame_4x2 capture_log /\
  frame_count_ ready_4x2 < 2 ^ 53 /\
  frame_count_ ready_4x2 < 2 ^ 64 - 1 /\
  reported_frameCount one_frame_4x2 = reported_frameCount ready_4x2 + 1 /\
  reported_frameCount ready_4x2 <= reported_frameCount one_frame_4x2.
Proof.
  assert (H1 : run [initialize [] (setup_ok (desc_of 4 2))]
                   (DesktopDuplicator_new no_desc) =
               Done [returns (Boolean true)] ready_4x2 setup_log)
    by (vm_compute; reflexivity).
  assert (H2 : call (captureFrame frame_ready) ready_4x2 =
               Done (returns (Boolean true)) one_frame_4x2 capture_log)
    by (vm_compute; reflexivity).
  assert (H3 : frame_count_ ready_4x2 < 2 ^ 53) by reflexivity.
  assert (H4 : frame_count_ ready_4x2 < 2 ^ 64 - 1) by reflexivity.
  split; [exact H1|]. split; [exact H2|]. split; [exact H3|]. split; [exact H4|].
  destruct (frameCount_counts_captures _ _ _ _ _ _ _ _ _ H1 H2) as (_ & H5 & H6).
  split; [exact (H5 H3) | exact (H6 H4)].
Defined.

(** C3, as stated, fails: after [2^53] captured frames on one object, one
    more capture answers [true] and the reported [frameCount] stays at
    [2^53], because the counter is reported as a [double]. *)
Lemma frameCount_stalls_after_2_53_frames :
  exists rs s log s' log',
    run (initialize [] (setup_ok (desc_of 4 2)) :: many_frames)
        (DesktopDuplicator_new no_desc) = Done rs s log /\
    call (captureFrame frame_ready) s = Done (returns (Boolean true)) s' log' /\
    frame_count_ s = 2 ^ 53 /\
    frame_count_ s' = 2 ^ 53 + 1 /\
    reported_frameCount s = 2 ^ 53 /\
    reported_frameCount s' = 2 ^ 53.
Proof.
  assert (H1 : call (initialize [] (setup_ok (desc_of 4 2)))
                    (DesktopDuplicator_new no_desc) =
               Done (returns (Boolean true)) ready_4x2 setup_log)
    by (vm_compute; reflexivity).
  assert (Hr : ready ready_4x2) by (repeat split; discriminate).
  assert (Hc : 0 <= frame_count_ ready_4x2 < 2 ^ 64) by (cbn; lia).
  destruct (run_served frame_ready (Z.to_nat (2 ^ 53)) ready_4x2 Hr Hc eq_refl eq_refl)
    as (rs & s & log & H2 & Hr2 & Hc2).
  rewrite Z2Nat.id in Hc2 by lia.
  change (frame_count_ ready_4x2) with 0 in Hc2.
  rewrite Z.add_0_l, wrap64_small in Hc2 by lia.
  destruct (call_served frame_ready s Hr2 eq_refl eq_refl)
    as (s' & log' & H3 & _ & Hc3).
  rewrite Hc2, wrap64_small in Hc3 by lia.
  exists (returns (Boolean true) :: rs), s, (setup_log ++ log), s', log'.
  split.
  - rewrite run_cons, H1. unfold many_frames. rewrite H2. reflexivity.
  - split; [exact H3|]. split; [exact Hc2|]. split; [exact Hc3|].
    unfold reported_frameCount. rewrite Hc2, Hc3. split; reflexivity.
Qed.

(** After [2^64 - 1] captured frames the counter is at its last value; one
    more capture answers [true], the counter wraps around to zero, and the
    reported [frameCount] falls from [2^64] to zero. *)
Lemma frameCount_wraps_after_2_64_frames :
  exists rs s log s' log',
    run (initialize [] (setup_ok (desc_of 4 2)) :: frames_until_wrap)
        (DesktopDuplicator_new no_desc) = Done rs s log /\
    call (captureFrame frame_ready) s = Done (returns (Boolean true)) s' log' /\
    frame_count_ s = 2 ^ 64 - 1 /\
    frame_count_ s' = 0 /\
    reported_frameCount s = 2 ^ 64 /\
    reported_frameCount s' = 0.
Proof.
  assert (H1 : call (initialize [] (setup_ok (desc_of 4 2)))
                    (DesktopDuplicator_new no_desc) =
               Done (returns (Boolean true)) ready_4x2 setup_log)
    by (vm_compute; reflexivity).
  assert (Hr : ready ready_4x2) by (repeat split; discriminate).
  assert (Hc : 0 <= frame_count_ ready_4x2 < 2 ^ 64) by (cbn; lia).
  destruct (run_served frame_ready (Z.to_nat (2 ^ 64 - 1)) ready_4x2 Hr Hc eq_refl eq_refl)
    as (rs & s & log & H2 & Hr2 & Hc2).
  rewrite Z2Nat.id in Hc2 by lia.
  change (frame_count_ ready_4x2) with 0 in Hc2.
  rewrite Z.add_0_l, wrap64_small in Hc2 by lia.
  destruct (call_served frame_ready s Hr2 eq_refl eq_refl)
    as (s' & log' & H3 & _ & Hc3).
  rewrite Hc2 in Hc3. change (wrap64 (2 ^ 64 - 1 + 1)) with 0 in Hc3.
  exists (returns (Boolean true) :: rs), s, (setup_log ++ log), s', log'.
  split.
  - rewrite run_cons, H1. unfold frames_until_wrap. rewrite H2. reflexivity.
  - split; [exact H3|]. split; [exact Hc2|]. split; [exact Hc3|].
    unfold reported_frameCount. rewrite Hc2, Hc3. split; reflexivity.
Qed.

(** ** Geometry of the buffer [GetTexture] returns *)

Lemma new_typed (garbage : DXGI_OUTDUPL_DESC) :
  staging_typed (DesktopDuplicator_new garbage).
Proof. intros t Ht. discriminate Ht. Qed.

Lemma call_typed (c : api) (s : DesktopDuplicator) :
  well_typed c -> staging_typed s ->
  match call c s with Done _ s' _ => staging_typed s' | Crash _ => True end.
Proof.
  destruct s as [dev ctx dup stg desc ini fc]. unfold staging_typed. dd_fields.
  intros Hw Ht.
  destruct c as [info p|p|p| |]; destruct ini;
    destruct dev as [dev|], ctx as [ctx|], dup as [dup|], stg as [stg|];
    dd_go; try exact I; dd_fields; try exact Ht;
    intros t Et; try discriminate Et; injection Et as <-; dd_fields;
    try exact Hw; apply (Ht _ eq_refl).
Qed.

Lemma run_typed (cs : list api) : forall s,
  Forall well_typed cs -> staging_typed s ->
  match run cs s with Done _ s' _ => staging_typed s' | Crash _ => True end.
Proof.
  induction cs as [|c cs IH]; intros s Hw Ht.
  - exact Ht.
  - inversion Hw as [|c' cs' Hc Hcs]; subst.
    rewrite run_cons. pose proof (call_typed c s Hc Ht) as H1.
    destruct (call c s) as [l|r s1 l1]; [exact I|].
    specialize (IH s1 Hcs H1). destruct (run cs s1); [exact I | exact IH].
Qed.

Lemma GetTexture_object (m : map_reply) (s s' : DesktopDuplicator) data w h pitch log :
  GetTexture m s = Done (TextureObject data w h pitch) s' log ->
  exists t,
    staging_texture_ s = Some t /\
    TextureObject data w h pitch = texture_object t (duplication_desc_ s) m.
Proof.
  destruct s as [dev ctx dup stg desc ini fc].
  destruct stg as [stg|], ctx as [ctx|]; dd_go; intros H;
    try discriminate H; injection H as <- <- <- <- <- <-.
  exists stg. split; reflexivity.
Qed.

Section BufferGeometry.

(** Bytes per pixel of a [DXGI_FORMAT]; the program never computes it. *)
Variable bytesPerPixel : Z -> Z.

(** Where the geometry of the buffer is right.  In a state reached by calls
    on a new object, when [GetTexture] returns an object, its [width] and
    [height] are those of the descriptor read at setup, its [pitch] is the
    row pitch of the mapping, and the length of [data] is [height * pitch]
    whenever that product is below [2^32].  The staging texture was created
    with the descriptor's width and format, so [pitch] is at least
    [width * bytesPerPixel format] whenever the platform maps a texture
    with a row pitch of at least its own width times the size of a pixel. *)
Theorem getTexture_geometry
    garbage cs rs (s s' : DesktopDuplicator) log (m : map_reply)
    data w h pitch log' t :
  Forall well_typed cs ->
  run cs (DesktopDuplicator_new garbage) = Done rs s log ->
  GetTexture m s = Done (TextureObject data w h pitch) s' log' ->
  UINT_typed (RowPitch m) ->
  staging_texture_ s = Some t ->
  tex_Width t * bytesPerPixel (tex_Format t) <= RowPitch m ->
  w = Width (ModeDesc (duplication_desc_ s)) /\
  h = Height (ModeDesc (duplication_desc_ s)) /\
  pitch = RowPitch m /\
  (h * pitch < 2 ^ 32 -> Z.of_nat (List.length data) = h * pitch) /\
  w * bytesPerPixel (Format (ModeDesc (duplication_desc_ s))) <= pitch.
Proof.
  intros Hw Hrun Hget Hp Ht Hpitch.
  pose proof (reachable_inv _ _ _ _ _ Hrun) as Hinv.
  pose proof (run_typed cs _ Hw (new_typed garbage)) as Htyped.
  rewrite Hrun in Htyped.
  destruct (GetTexture_object _ _ _ _ _ _ _ _ Hget) as (t' & Ht' & Hobj).
  rewrite Ht in Ht'. injection Ht' as <-.
  destruct (inv_staging s Hinv t Ht) as (HW & HH & HF).
  destruct (Htyped t Ht) as (HtW & HtH).
  unfold texture_object in Hobj. injection Hobj as -> -> -> ->.
  rewrite <- HW, <- HH, <- HF.
  rewrite !Number_New_UINT by assumption.
  assert (Hlen : Z.of_nat (List.length
                   (Buffer_Copy (tex_pixels t (RowPitch m))
                                (wrap32 (tex_Height t * RowPitch m)))) =
                 wrap32 (tex_Height t * RowPitch m))
    by (apply Buffer_Copy_length; apply wrap32_range).
  repeat split; try reflexivity; try assumption.
  intros Hsmall. rewrite Hlen. apply wrap32_small.
  unfold UINT_typed in *. split; [nia | exact Hsmall].
Qed.

End BufferGeometry.

Lemma getTexture_geometry_example :
  Forall well_typed [initialize [] (setup_ok (desc_of 4 2)); captureFrame frame_ready] /\
  run [initialize [] (setup_ok (desc_of 4 2)); captureFrame frame_ready]
      (DesktopDuplicator_new no_desc) =
    Done [returns (Boolean true); returns (Boolean true)] one_frame_4x2
         (setup_log ++ capture_log) /\
  GetTexture (mapped 16) one_frame_4x2 =
    Done (TextureObject (Buffer_Copy (gradient 16) 32) 4 2 16) one_frame_4x2
         [Map S_OK; Unmap] /\
  UINT_typed 16 /\
  4 * 4 <= 16 /\
  Z.of_nat (List.length (Buffer_Copy (gradient 16) 32)) = 2 * 16 /\
  4 * 4 <= 16.
Proof.
  assert (H0 : Forall well_typed
                 [initialize [] (setup_ok (desc_of 4 2)); captureFrame frame_ready]).
  { repeat constructor; cbn; lia. }
  assert (H1 : run [initialize [] (setup_ok (desc_of 4 2)); captureFrame frame_ready]
                   (DesktopDuplicator_new no_desc) =
               Done [returns (Boolean true); returns (Boolean true)] one_frame_4x2
                    (setup_log ++ capture_log))
    by (vm_compute; reflexivity).
  assert (H2 : GetTexture (mapped 16) one_frame_4x2 =
               Done (TextureObject (Buffer_Copy (gradient 16) 32) 4 2 16) one_frame_4x2
                    [Map S_OK; Unmap])
    by (vm_compute; reflexivity).
  assert (H3 : UINT_typed 16) by (unfold UINT_typed; lia).
  assert (H4 : 4 * 4 <= 16) by lia.
  split; [exact H0|]. split; [exact H1|]. split; [exact H2|].
  split; [exact H3|]. split; [exact H4|].
  destruct (getTexture_geometry (fun _ => 4) _ _ _ _ _ _ _ _ _ _ _ _ _
              H0 H1 H2 H3 eq_refl H4) as (_ & _ & _ & H5 & H6).
  split; [apply H5; reflexivity | exact H6].
Defined.


(** ** The paths of the methods on small inputs *)

(** A timeout and a refused acquisition answer [false] and change nothing. *)
Example polls_without_a_frame :
  run [captureFrame no_new_frame; captureFrame invalid_call; getFrameInfo]
      one_frame_4x2 =
  Done [returns (Boolean false); returns (Boolean false);
        returns (FrameInfoObject 4 2 rate_60 1)]
       one_frame_4x2
       [AcquireNextFrame DXGI_ERROR_WAIT_TIMEOUT;
        AcquireNextFrame DXGI_ERROR_INVALID_CALL].
Proof. vm_compute. reflexivity. Qed.

(** When the texture query fails the frame is released and not counted. *)
Example texture_query_failure :
  CaptureFrame not_a_texture one_frame_4x2 =
  Done (returns (Boolean false)) one_frame_4x2
       [AcquireNextFrame S_OK; QueryInterface_ID3D11Texture2D E_FAIL;
        ReleaseFrame].
Proof. vm_compute. reflexivity. Qed.

(** An output index beyond the outputs of the adapter, and a negative one. *)
Example output_index_out_of_range :
  Initialize [JsNumber 2] (setup_ok (desc_of 4 2)) (DesktopDuplicator_new no_desc) =
  Done (throws "Failed to create desktop duplication" (Boolean false))
       {| device_ := Some 1%N; context_ := Some 2%N; duplication_ := None;
          staging_texture_ := None; duplication_desc_ := no_desc;
          initialized_ := false; frame_count_ := 0 |}
       [D3D11CreateDevice S_OK; QueryInterface_IDXGIDevice S_OK; GetAdapter S_OK;
        EnumOutputs 2 DXGI_ERROR_NOT_FOUND] /\
  events_of (Initialize [JsNumber (-1)] (setup_ok (desc_of 4 2))
               (DesktopDuplicator_new no_desc)) =
  [D3D11CreateDevice S_OK; QueryInterface_IDXGIDevice S_OK; GetAdapter S_OK;
   EnumOutputs (2 ^ 32 - 1) DXGI_ERROR_NOT_FOUND].
Proof. split; vm_compute; reflexivity. Qed.

(** After the loss of the duplication, an [initialize] that cannot create a
    device leaves the old staging texture without a context: [GetTexture]
    then dereferences a null pointer. *)
Example getTexture_without_context :
  run [captureFrame access_lost; initialize [] setup_no_device;
       getTexture (mapped 16)] one_frame_4x2 =
  Crash [AcquireNextFrame DXGI_ERROR_ACCESS_LOST;
         Release_device 1%N; Release_context 2%N; D3D11CreateDevice E_FAIL].
Proof. vm_compute. reflexivity. Qed.

(** ** Disciplines every run keeps *)

Lemma mapping_app (l1 l2 : list event) : forall mapped,
  mapping mapped (l1 ++ l2) =
  match mapping mapped l1 with
  | Some mapped' => mapping mapped' l2
  | None => None
  end.
Proof.
  induction l1 as [|e l1 IH]; intros mapped; [reflexivity|].
  destruct e; cbn [app mapping]; try apply IH;
    destruct mapped; try reflexivity; apply IH.
Qed.

Lemma call_mapping (c : api) (s : DesktopDuplicator) :
  match call c s with
  | Done _ _ log => mapping false log = Some false
  | Crash log => mapping false log <> None
  end.
Proof.
  destruct s as [dev ctx dup stg desc ini fc].
  destruct c as [info p|p|p| |]; destruct ini;
    destruct dev as [dev|], ctx as [ctx|], dup as [dup|], stg as [stg|];
    dd_go; cbn [mapping]; rewrite ?SUCCEEDED_FAILED;
    repeat match goal with H : FAILED _ = _ |- _ => rewrite H end;
    cbn [negb mapping]; try reflexivity; discriminate.
Qed.

(** X7.  In every sequence of calls, from any state and whatever the platform
    answers, a successful [Map] of the staging texture is followed by [Unmap]
    before anything else touches the texture or the context, a failed [Map]
    by no [Unmap], and the texture is not mapped when the sequence
    returns. *)
Theorem map_unmap_paired (cs : list api) : forall s,
  match run cs s with
  | Done _ _ log => mapping false log = Some false
  | Crash log => mapping false log <> None
  end.
Proof.
  induction cs as [|c cs IH]; intros s; [reflexivity|].
  rewrite run_cons. pose proof (call_mapping c s) as Hc.
  destruct (call c s) as [l|r s1 l1]; [exact Hc|].
  specialize (IH s1). destruct (run cs s1) as [l2|rs s2 l2];
    rewrite mapping_app, Hc; exact IH.
Qed.

Lemma frame_use_app (l1 l2 : list event) : forall held,
  frame_use held (l1 ++ l2) =
  match frame_use held l1 with
  | Some held' => frame_use held' l2
  | None => None
  end.
Proof.
  induction l1 as [|e l1 IH]; intros held; [reflexivity|].
  destruct e; cbn [app frame_use]; try apply IH;
    destruct held; try reflexivity; apply IH.
Qed.

Lemma call_frame_use (c : api) (s : DesktopDuplicator) :
  match call c s with
  | Done _ _ log => frame_use false log = Some false
  | Crash log => frame_use false log <> None
  end.
Proof.
  destruct s as [dev ctx dup stg desc ini fc].
  destruct c as [info p|p|p| |]; destruct ini;
    destruct dev as [dev|], ctx as [ctx|], dup as [dup|], stg as [stg|];
    dd_go; cbn [frame_use orb]; rewrite ?SUCCEEDED_FAILED;
    repeat match goal with H : FAILED _ = _ |- _ => rewrite H end;
    cbn [negb frame_use]; try reflexivity; discriminate.
Qed.

(** X8.  In every sequence of calls, from any state and whatever the platform
    answers, the acquired frame is queried for its texture and copied into
    the staging texture only while it is outstanding: after the successful
    [AcquireNextFrame] and before the [ReleaseFrame] of the same capture. *)
Theorem copy_before_release (cs : list api) : forall s,
  match run cs s with
  | Done _ _ log => frame_use false log = Some false
  | Crash log => frame_use false log <> None
  end.
Proof.
  induction cs as [|c cs IH]; intros s; [reflexivity|].
  rewrite run_cons. pose proof (call_frame_use c s) as Hc.
  destruct (call c s) as [l|r s1 l1]; [exact Hc|].
  specialize (IH s1). destruct (run cs s1) as [l2|rs s2 l2];
    rewrite frame_use_app, Hc; exact IH.
Qed.

Lemma references_app (k : member) (l1 l2 : list event) : forall held,
  references k held (l1 ++ l2) =
  match references k held l1 with
  | Some held' => references k held' l2
  | None => None
  end.
Proof.
  induction l1 as [|e l1 IH]; intros held; [reflexivity|].
  cbn [app references].
  repeat match goal with
         | |- context [if ?b then _ else _] => destruct b
         end; try reflexivity; apply IH.
Qed.

Lemma call_references (k : member) (c : api) (s : DesktopDuplicator) :
  match call c s with
  | Done _ s' log => references k (holds k s) log = Some (holds k s')
  | Crash log => references k (holds k s) log <> None
  end.
Proof.
  destruct s as [dev ctx dup stg desc ini fc].
  destruct k; destruct c as [info p|p|p| |]; destruct ini;
    destruct dev as [dev|], ctx as [ctx|], dup as [dup|], stg as [stg|];
    dd_go; cbn [references holds not_null device_ context_ duplication_
                staging_texture_]; rewrite ?SUCCEEDED_FAILED;
    repeat match goal with H : FAILED _ = _ |- _ => rewrite H end;
    cbn [negb]; try reflexivity; discriminate.
Qed.

(** X14.  Along every sequence of calls, from any state and whatever the
    platform answers, each of the four members gives up its reference before
    it receives a new object and never gives up a reference it does not
    hold; at the end a member holds a reference exactly when it is not
    null.  So no reference leaks when [Initialize] runs again on a lost
    session, and after [Release] every object created has been released. *)
Theorem references_balanced (k : member) (cs : list api) : forall s,
  match run cs s with
  | Done _ s' log => references k (holds k s) log = Some (holds k s')
  | Crash log => references k (holds k s) log <> None
  end.
Proof.
  induction cs as [|c cs IH]; intros s; [reflexivity|].
  rewrite run_cons. pose proof (call_references k c s) as Hc.
  destruct (call c s) as [l|r s1 l1]; [exact Hc|].
  specialize (IH s1). destruct (run cs s1) as [l2|rs s2 l2];
    rewrite references_app, Hc; exact IH.
Qed.

(** ** More on setup *)

(** X1.  [Initialize] on an object that is not initialized makes the calls of
    the setup in one fixed order (device, DXGI device, adapter, output,
    output interface, duplication, descriptor, staging texture) and stops at
    the first call that fails: nothing is created after a failure.  On an
    initialized object it makes no call. *)
Theorem setup_stops_at_first_failure info p (s : DesktopDuplicator) :
  filter (fun e => negb (is_release e)) (events_of (Initialize info p s)) =
  if initialized_ s then [] else until_failure (setup_calls info p).
Proof.
  destruct s as [dev ctx dup stg desc ini fc].
  unfold setup_calls. cbn [until_failure event_failed].
  destruct ini; destruct dev as [dev|], ctx as [ctx|], dup as [dup|], stg as [stg|];
    dd_go; cbn [filter is_release negb]; reflexivity.
Qed.

(** X2.  The error [Initialize] raises tells the stage that failed: "Failed
    to initialize D3D11" exactly when the device cannot be created, "Failed
    to create desktop duplication" exactly when the device is created and a
    later call of the setup fails, and no error otherwise. *)
Theorem initialize_error_message info p (s : DesktopDuplicator) :
  match Initialize info p s with
  | Crash _ => False
  | Done r _ _ =>
      thrown r =
        if initialized_ s then None
        else if FAILED (create_device_hr p)
        then Some "Failed to initialize D3D11"%string
        else if setup_fails info p
        then Some "Failed to create desktop duplication"%string
        else None
  end.
Proof.
  destruct s as [dev ctx dup stg desc ini fc]. unfold setup_fails.
  destruct ini; destruct dev as [dev|], ctx as [ctx|], dup as [dup|], stg as [stg|];
    dd_go; reflexivity.
Qed.

Lemma wrap32_idempotent (x : Z) : wrap32 (wrap32 x) = wrap32 x.
Proof. unfold wrap32. apply Z.mod_mod. lia. Qed.

(** X3.  [Initialize] reads its first argument only, and only when it is a
    number: without arguments, or with a first argument that is not a number,
    it sets up output 0.  The index reaches the platform as a [UINT]: an
    index and the same index modulo [2^32] give the same setup, so a negative
    index asks for an output near [2^32]. *)
Theorem initialize_output_index (p : init_reply) (s : DesktopDuplicator) :
  Initialize [] p s = Initialize [JsNumber 0] p s /\
  (forall rest, Initialize (JsOther :: rest) p s = Initialize [JsNumber 0] p s) /\
  (forall n rest,
     Initialize (JsNumber n :: rest) p s = Initialize [JsNumber n] p s) /\
  (forall n, Initialize [JsNumber n] p s = Initialize [JsNumber (wrap32 n)] p s).
Proof.
  split; [reflexivity|]. split; [reflexivity|]. split; [reflexivity|].
  intros n. unfold Initialize, CreateDuplication. cbv zeta.
  rewrite wrap32_idempotent. reflexivity.
Qed.

(** X4.  On an object that is not initialized, a successful [Initialize]
    followed by [GetFrameInfo] reports the width, the height and the refresh
    rate of the descriptor the platform handed out during this setup, and
    the frame count the object had before. *)
Theorem initialize_then_getFrameInfo
    info p (s s' : DesktopDuplicator) ri rv log :
  initialized_ s = false ->
  UINT_typed (Width (ModeDesc (got_desc p))) ->
  UINT_typed (Height (ModeDesc (got_desc p))) ->
  run [initialize info p; getFrameInfo] s = Done [ri; rv] s' log ->
  returned ri = Boolean true ->
  returned rv =
    FrameInfoObject (Width (ModeDesc (got_desc p)))
                    (Height (ModeDesc (got_desc p)))
                    (RefreshRate (ModeDesc (got_desc p)))
                    (Number_New (frame_count_ s)).
Proof.
  intros Hi HW HH Hrun Hr.
  rewrite run_cons in Hrun. cbn [call] in Hrun.
  pose proof (Initialize_outcome info p s) as Ho.
  destruct (Initialize info p s) as [l|r s1 l1]; [contradiction|].
  rewrite Hi in Ho.
  rewrite run_cons in Hrun. cbn [call] in Hrun. unfold bind at 1 in Hrun.
  destruct (setup_fails info p).
  - destruct Ho as (Hf & _).
    destruct (GetFrameInfo s1); cbn in Hrun; [discriminate Hrun|].
    injection Hrun as <- _ _ _. congruence.
  - destruct Ho as (_ & Hi1 & Hc & _ & _ & _ & Hd & _).
    rewrite (GetFrameInfo_initialized s1 Hi1) in Hrun. cbn in Hrun.
    injection Hrun as _ <- _ _. cbn [returned returns].
    rewrite Hd, Hc, !Number_New_UINT by assumption. reflexivity.
Qed.

Lemma initialize_then_getFrameInfo_1080p :
  initialized_ (DesktopDuplicator_new no_desc) = false /\
  UINT_typed 1920 /\ UINT_typed 1080 /\
  run [initialize [] (setup_ok desc_1080p); getFrameInfo]
      (DesktopDuplicator_new no_desc) =
    Done [returns (Boolean true);
          returns (FrameInfoObject 1920 1080 rate_60 0)]
         (set_duplication_desc_ desc_1080p
            (set_staging_texture_
               (Some {| tex_id := 4%N; tex_Width := 1920; tex_Height := 1080;
                        tex_Format := DXGI_FORMAT_B8G8R8A8_UNORM;
                        tex_pixels := blank |}) ready_4x2))
         setup_log /\
  returned (returns (FrameInfoObject 1920 1080 rate_60 0)) =
    FrameInfoObject 1920 1080 rate_60 (Number_New 0).
Proof.
  assert (H1 : UINT_typed 1920) by (unfold UINT_typed; lia).
  assert (H2 : UINT_typed 1080) by (unfold UINT_typed; lia).
  assert (H3 : run [initialize [] (setup_ok desc_1080p); getFrameInfo]
                   (DesktopDuplicator_new no_desc) =
               Done [returns (Boolean true);
                     returns (FrameInfoObject 1920 1080 rate_60 0)]
                    (set_duplication_desc_ desc_1080p
                       (set_staging_texture_
                          (Some {| tex_id := 4%N; tex_Width := 1920;
                                   tex_Height := 1080;
                                   tex_Format := DXGI_FORMAT_B8G8R8A8_UNORM;
                                   tex_pixels := blank |}) ready_4x2))
                    setup_log)
    by (vm_compute; reflexivity).
  split; [reflexivity|]. split; [exact H1|]. split; [exact H2|].
  split; [exact H3|].
  exact (initialize_then_getFrameInfo [] (setup_ok desc_1080p)
           (DesktopDuplicator_new no_desc) _ _ _ _ eq_refl H1 H2 H3 eq_refl).
Defined.

(** ** More on captures and queries *)

(** X5.  In a session set up by calls on a new object, [CaptureFrame] never
    crashes and never raises an error; it answers [true] exactly when the
    acquisition and the texture query both succeed, and it clears
    [initialized_] exactly when the acquisition answers
    [DXGI_ERROR_ACCESS_LOST]. *)
Theorem captureFrame_result
    garbage cs rs (s : DesktopDuplicator) log (p : acquire_reply) :
  run cs (DesktopDuplicator_new garbage) = Done rs s log ->
  initialized_ s = true ->
  exists s' log',
    CaptureFrame p s =
      Done (returns (Boolean (SUCCEEDED (acquire_hr p) &&
                              SUCCEEDED (texture_qi_hr p)))) s' log' /\
    initialized_ s' = negb (acquire_hr p =? DXGI_ERROR_ACCESS_LOST).
Proof.
  intros Hrun Hi.
  destruct (inv_is_ready s (reachable_inv _ _ _ _ _ Hrun) Hi) as (_ & Hd & Hc).
  destruct s as [dev ctx dup stg desc ini fc]. dd_fields. subst ini.
  destruct dup as [dup|]; [|congruence]. destruct ctx as [ctx|]; [|congruence].
  rewrite !SUCCEEDED_FAILED.
  destruct stg as [stg|]; dd_go; cbn [negb andb]; eauto.
  all: exfalso;
    match goal with
    | H1 : (?hr =? DXGI_ERROR_WAIT_TIMEOUT) = true,
      H2 : (?hr =? DXGI_ERROR_ACCESS_LOST) = true |- _ =>
        apply Z.eqb_eq in H1, H2; rewrite H1 in H2; discriminate H2
    end.
Qed.

Lemma captureFrame_result_example :
  run [initialize [] (setup_ok (desc_of 4 2))] (DesktopDuplicator_new no_desc) =
    Done [returns (Boolean true)] ready_4x2 setup_log /\
  initialized_ ready_4x2 = true /\
  exists s' log',
    CaptureFrame not_a_texture ready_4x2 =
      Done (returns (Boolean false)) s' log' /\
    initialized_ s' = true.
Proof.
  assert (H : run [initialize [] (setup_ok (desc_of 4 2))]
                  (DesktopDuplicator_new no_desc) =
              Done [returns (Boolean true)] ready_4x2 setup_log)
    by (vm_compute; reflexivity).
  split; [exact H|]. split; [reflexivity|].
  exact (captureFrame_result _ _ _ _ _ not_a_texture H eq_refl).
Defined.

(** X6.  In a session set up by calls on a new object, an acquisition that
    fails with any code other than [DXGI_ERROR_ACCESS_LOST], the timeout
    included, makes [CaptureFrame] answer [false] after that one platform
    call and leaves the object exactly as it was. *)
Theorem transient_failure_changes_nothing
    garbage cs rs (s : DesktopDuplicator) log (p : acquire_reply) :
  run cs (DesktopDuplicator_new garbage) = Done rs s log ->
  initialized_ s = true ->
  FAILED (acquire_hr p) = true ->
  acquire_hr p <> DXGI_ERROR_ACCESS_LOST ->
  CaptureFrame p s =
    Done (returns (Boolean false)) s [AcquireNextFrame (acquire_hr p)].
Proof.
  intros Hrun Hi Hf Hl.
  destruct (inv_is_ready s (reachable_inv _ _ _ _ _ Hrun) Hi) as (_ & Hd & Hc).
  destruct s as [dev ctx dup stg desc ini fc]. dd_fields. subst ini.
  destruct dup as [dup|]; [|congruence]. destruct ctx as [ctx|]; [|congruence].
  apply Z.eqb_neq in Hl.
  unfold CaptureFrame. dd_red. rewrite SUCCEEDED_FAILED, Hf, Hl. dd_red.
  destruct (acquire_hr p =? DXGI_ERROR_WAIT_TIMEOUT); reflexivity.
Qed.

Lemma transient_failure_example :
  run [initialize [] (setup_ok (desc_of 4 2)); captureFrame frame_ready]
      (DesktopDuplicator_new no_desc) =
    Done [returns (Boolean true); returns (Boolean true)] one_frame_4x2
         (setup_log ++ capture_log) /\
  initialized_ one_frame_4x2 = true /\
  FAILED (acquire_hr invalid_call) = true /\
  acquire_hr invalid_call <> DXGI_ERROR_ACCESS_LOST /\
  CaptureFrame invalid_call one_frame_4x2 =
    Done (returns (Boolean false)) one_frame_4x2
         [AcquireNextFrame DXGI_ERROR_INVALID_CALL].
Proof.
  assert (H : run [initialize [] (setup_ok (desc_of 4 2)); captureFrame frame_ready]
                  (DesktopDuplicator_new no_desc) =
              Done [returns (Boolean true); returns (Boolean true)] one_frame_4x2
                   (setup_log ++ capture_log))
    by (vm_compute; reflexivity).
  assert (Hn : acquire_hr invalid_call <> DXGI_ERROR_ACCESS_LOST)
    by discriminate.
  split; [exact H|]. split; [reflexivity|]. split; [reflexivity|].
  split; [exact Hn|].
  exact (transient_failure_changes_nothing _ _ _ _ _ invalid_call
           H eq_refl eq_refl Hn).
Defined.

Lemma call_query (c : api) (s : DesktopDuplicator) :
  is_query c = true ->
  match call c s with
  | Done _ s' _ => s' = s
  | Crash _ => True
  end.
Proof.
  destruct s as [dev ctx dup stg desc ini fc].
  destruct c as [info p|p|p| |]; try discriminate; intros _;
    destruct ini, ctx as [ctx|], stg as [stg|]; dd_go;
    try exact I; reflexivity.
Qed.

(** X9.  [GetTexture] and [GetFrameInfo] only read: after any sequence of
    these two calls, whatever the platform answers to the mappings, the
    object is exactly as it was before. *)
Theorem queries_change_nothing (cs : list api) : forall s rs s' log,
  forallb is_query cs = true ->
  run cs s = Done rs s' log ->
  s' = s.
Proof.
  induction cs as [|c cs IH]; intros s rs s' log Hq Hrun.
  - cbn in Hrun. injection Hrun as _ <- _. reflexivity.
  - cbn [forallb] in Hq. apply andb_true_iff in Hq as [Hc Hq].
    rewrite run_cons in Hrun. pose proof (call_query c s Hc) as H1.
    destruct (call c s) as [l|r s1 l1]; [discriminate Hrun|]. subst s1.
    destruct (run cs s) as [l|rs2 s2 l2] eqn:E; [discriminate Hrun|].
    injection Hrun as _ <- _. exact (IH s rs2 s2 l2 Hq E).
Qed.

Lemma queries_change_nothing_example :
  forallb is_query [getTexture (mapped 16); getFrameInfo; getTexture (mapped 32)] = true /\
  run [getTexture (mapped 16); getFrameInfo; getTexture (mapped 32)] one_frame_4x2 =
    Done [returns (TextureObject (Buffer_Copy (gradient 16) 32) 4 2 16);
          returns (FrameInfoObject 4 2 rate_60 1);
          returns (TextureObject (Buffer_Copy (gradient 32) 64) 4 2 32)]
         one_frame_4x2 [Map S_OK; Unmap; Map S_OK; Unmap] /\
  one_frame_4x2 = one_frame_4x2.
Proof.
  assert (H : run [getTexture (mapped 16); getFrameInfo; getTexture (mapped 32)]
                  one_frame_4x2 =
              Done [returns (TextureObject (Buffer_Copy (gradient 16) 32) 4 2 16);
                    returns (FrameInfoObject 4 2 rate_60 1);
                    returns (TextureObject (Buffer_Copy (gradient 32) 64) 4 2 32)]
                   one_frame_4x2 [Map S_OK; Unmap; Map S_OK; Unmap])
    by (vm_compute; reflexivity).
  split; [reflexivity|]. split; [exact H|].
  exact (queries_change_nothing
           [getTexture (mapped 16); getFrameInfo; getTexture (mapped 32)]
           _ _ _ _ eq_refl H).
Defined.

(** X10.  In a session set up by calls on a new object, a capture the
    platform serves followed by a [GetTexture] whose mapping succeeds hands
    back the bytes of the frame just acquired, with the dimensions of the
    descriptor: the copy into the staging texture is what the next read
    sees. *)
Theorem capture_then_getTexture
    garbage cs rs (s : DesktopDuplicator) log (q : acquire_reply) (m : map_reply) :
  run cs (DesktopDuplicator_new garbage) = Done rs s log ->
  initialized_ s = true ->
  SUCCEEDED (acquire_hr q) = true ->
  SUCCEEDED (texture_qi_hr q) = true ->
  SUCCEEDED (map_hr m) = true ->
  exists s',
    run [captureFrame q; getTexture m] s =
      Done [returns (Boolean true);
            returns (TextureObject
                       (Buffer_Copy (desktop_image q (RowPitch m))
                          (wrap32 (Height (ModeDesc (duplication_desc_ s)) *
                                   RowPitch m)))
                       (Number_New (Width (ModeDesc (duplication_desc_ s))))
                       (Number_New (Height (ModeDesc (duplication_desc_ s))))
                       (Number_New (RowPitch m)))]
           s'
           [AcquireNextFrame (acquire_hr q);
            QueryInterface_ID3D11Texture2D (texture_qi_hr q);
            CopyResource; ReleaseFrame; Map (map_hr m); Unmap].
Proof.
  intros Hrun Hi Ha Hq Hm.
  destruct (inv_ready s (reachable_inv _ _ _ _ _ Hrun) Hi) as (_ & Hc & Hd & Hs).
  rewrite SUCCEEDED_FAILED in Ha, Hq, Hm.
  apply negb_true_iff in Ha. apply negb_true_iff in Hq.
  apply negb_true_iff in Hm.
  destruct s as [dev ctx dup stg desc ini fc]. dd_fields. subst ini.
  destruct dup as [dup|]; [|congruence]. destruct ctx as [ctx|]; [|congruence].
  destruct stg as [stg|]; [|congruence].
  eexists. cbn [run]. dd_go; try congruence. reflexivity.
Qed.

Lemma capture_then_getTexture_example :
  run [initialize [] (setup_ok (desc_of 4 2))] (DesktopDuplicator_new no_desc) =
    Done [returns (Boolean true)] ready_4x2 setup_log /\
  initialized_ ready_4x2 = true /\
  SUCCEEDED (acquire_hr frame_ready) = true /\
  SUCCEEDED (texture_qi_hr frame_ready) = true /\
  SUCCEEDED (map_hr (mapped 16)) = true /\
  exists s',
    run [captureFrame frame_ready; getTexture (mapped 16)] ready_4x2 =
      Done [returns (Boolean true);
            returns (TextureObject (Buffer_Copy (gradient 16) 32) 4 2 16)]
           s'
           [AcquireNextFrame S_OK; QueryInterface_ID3D11Texture2D S_OK;
            CopyResource; ReleaseFrame; Map S_OK; Unmap].
Proof.
  assert (H : run [initialize [] (setup_ok (desc_of 4 2))]
                  (DesktopDuplicator_new no_desc) =
              Done [returns (Boolean true)] ready_4x2 setup_log)
    by (vm_compute; reflexivity).
  split; [exact H|]. split; [reflexivity|]. split; [reflexivity|].
  split; [reflexivity|]. split; [reflexivity|].
  exact (capture_then_getTexture _ _ _ _ _ frame_ready (mapped 16)
           H eq_refl eq_refl eq_refl eq_refl).
Defined.

Lemma CaptureFrame_keeps_texture (p : acquire_reply) (s : DesktopDuplicator) (m : map_reply) :
  match CaptureFrame p s with
  | Done r s' _ =>
      returned r <> Boolean true ->
      answer (GetTexture m s') = answer (GetTexture m s) /\
      staging_texture_ s' = staging_texture_ s
  | Crash _ => True
  end.
Proof.
  destruct s as [dev ctx dup stg desc ini fc].
  destruct ini, dup as [dup|], stg as [stg|], ctx as [ctx|];
    dd_go; try exact I; cbn [answer]; intros Hr; try congruence;
    split; reflexivity.
Qed.

(** X11.  A [CaptureFrame] that does not answer [true] (no new frame, a
    failed acquisition, fatal or not, a failed texture query, or an object
    that is not initialized) leaves what [GetTexture] answers as it was: the
    staging texture keeps the last frame copied. *)
Theorem failed_capture_keeps_texture
    (p : acquire_reply) (s s' : DesktopDuplicator) r log (m : map_reply) :
  CaptureFrame p s = Done r s' log ->
  returned r <> Boolean true ->
  answer (GetTexture m s') = answer (GetTexture m s) /\
  staging_texture_ s' = staging_texture_ s.
Proof.
  intros H. pose proof (CaptureFrame_keeps_texture p s m) as Hk.
  rewrite H in Hk. exact Hk.
Qed.

Lemma failed_capture_keeps_texture_example :
  CaptureFrame access_lost one_frame_4x2 =
    Done (returns (Boolean false)) (set_initialized_ false one_frame_4x2)
         [AcquireNextFrame DXGI_ERROR_ACCESS_LOST] /\
  returned (returns (Boolean false)) <> Boolean true /\
  answer (GetTexture (mapped 16) (set_initialized_ false one_frame_4x2)) =
    answer (GetTexture (mapped 16) one_frame_4x2) /\
  staging_texture_ (set_initialized_ false one_frame_4x2) =
    staging_texture_ one_frame_4x2.
Proof.
  assert (H : CaptureFrame access_lost one_frame_4x2 =
              Done (returns (Boolean false)) (set_initialized_ false one_frame_4x2)
                   [AcquireNextFrame DXGI_ERROR_ACCESS_LOST])
    by (vm_compute; reflexivity).
  assert (Hn : returned (returns (Boolean false)) <> Boolean true)
    by discriminate.
  split; [exact H|]. split; [exact Hn|].
  exact (failed_capture_keeps_texture access_lost one_frame_4x2 _ _ _
           (mapped 16) H Hn).
Defined.

(** X12.  Captures and queries never exchange the objects of a session:
    after [captureFrame], [getTexture] or [getFrameInfo] the device, the
    context, the duplication interface and the staging texture are the same
    objects, the texture has the same width, height and format, and the
    descriptor is the same.  Only [initialize] and [release] change them. *)
Theorem session_objects_stable (c : api) (s s' : DesktopDuplicator) r log :
  is_query_or_capture c = true ->
  call c s = Done r s' log ->
  session_objects s' = session_objects s.
Proof.
  destruct s as [dev ctx dup stg desc ini fc].
  destruct c as [info p|p|p| |]; try discriminate; intros _;
    destruct ini, dup as [dup|], stg as [stg|], ctx as [ctx|];
    dd_go; intros H; try discriminate H; injection H as <- <- <-; reflexivity.
Qed.

Lemma session_objects_stable_example :
  is_query_or_capture (captureFrame frame_ready) = true /\
  call (captureFrame frame_ready) ready_4x2 =
    Done (returns (Boolean true)) one_frame_4x2 capture_log /\
  session_objects one_frame_4x2 = session_objects ready_4x2.
Proof.
  assert (H : call (captureFrame frame_ready) ready_4x2 =
              Done (returns (Boolean true)) one_frame_4x2 capture_log)
    by (vm_compute; reflexivity).
  split; [reflexivity|]. split; [exact H|].
  exact (session_objects_stable (captureFrame frame_ready) _ _ _ _ eq_refl H).
Defined.

(** X13.  No null pointer is dereferenced in a session: in every state
    reached by calls on a new object, [CaptureFrame] returns whatever the
    platform answers, and on an initialized object so does [GetTexture].
    (On an object that is not initialized [GetTexture] can meet a texture
    without a context, see [getTexture_without_context].) *)
Theorem no_null_dereference
    garbage cs rs (s : DesktopDuplicator) log :
  run cs (DesktopDuplicator_new garbage) = Done rs s log ->
  (forall p, answer (CaptureFrame p s) <> None) /\
  (initialized_ s = true -> forall m, answer (GetTexture m s) <> None).
Proof.
  intros Hrun. pose proof (reachable_inv _ _ _ _ _ Hrun) as Hinv.
  destruct Hinv as [H1 _ _ _].
  destruct s as [dev ctx dup stg desc ini fc]. dd_fields. split.
  - intros p. destruct ini.
    + destruct H1 as (_ & Hc & Hd & Hs); [reflexivity|].
      destruct dup as [dup|]; [|congruence]. destruct ctx as [ctx|]; [|congruence].
      destruct stg as [stg|]; dd_go; discriminate.
    + discriminate.
  - intros -> m. destruct H1 as (_ & Hc & Hd & Hs); [reflexivity|].
    destruct ctx as [ctx|]; [|congruence].
    destruct stg as [stg|]; dd_go; discriminate.
Qed.

Lemma no_null_dereference_example :
  run [initialize [] (setup_ok (desc_of 4 2)); captureFrame frame_ready]
      (DesktopDuplicator_new no_desc) =
    Done [returns (Boolean true); returns (Boolean true)] one_frame_4x2
         (setup_log ++ capture_log) /\
  initialized_ one_frame_4x2 = true /\
  answer (CaptureFrame access_lost one_frame_4x2) <> None /\
  answer (GetTexture (mapped 16) one_frame_4x2) <> None.
Proof.
  assert (H : run [initialize [] (setup_ok (desc_of 4 2)); captureFrame frame_ready]
                  (DesktopDuplicator_new no_desc) =
              Done [returns (Boolean true); returns (Boolean true)] one_frame_4x2
                   (setup_log ++ capture_log))
    by (vm_compute; reflexivity).
  split; [exact H|]. split; [reflexivity|].
  destruct (no_null_dereference _ _ _ _ _ H) as [H1 H2].
  split; [exact (H1 access_lost) | exact (H2 eq_refl (mapped 16))].
Defined.

(** ** More on whole runs *)

Lemma run_frame_count (cs : list api) : forall s rs s' log,
  0 <= frame_count_ s < 2 ^ 64 ->
  run cs s = Done rs s' log ->
  frame_count_ s' = wrap64 (frame_count_ s + count_captured cs rs) /\
  0 <= count_captured cs rs <= Z.of_nat (List.length cs).
Proof.
  induction cs as [|c cs IH]; intros s rs s' log Hc Hrun.
  - cbn in Hrun. injection Hrun as <- <- _. cbn [count_captured List.length].
    rewrite Z.add_0_r, wrap64_small by exact Hc. split; [reflexivity | lia].
  - rewrite run_cons in Hrun.
    destruct (call c s) as [l|r s1 l1] eqn:E1; [discriminate Hrun|].
    destruct (run cs s1) as [l|rs2 s2 l2] eqn:E2; [discriminate Hrun|].
    injection Hrun as <- <- _.
    pose proof (call_frame_count c s s1 r l1 E1) as H1.
    assert (Hc1 : 0 <= frame_count_ s1 < 2 ^ 64).
    { rewrite H1. destruct (captured c r); [apply wrap64_range | exact Hc]. }
    destruct (IH s1 rs2 s2 l2 Hc1 E2) as [H2 H3].
    cbn [count_captured List.length]. rewrite Nat2Z.inj_succ.
    rewrite H2, H1. destruct (captured c r).
    + rewrite wrap64_succ. split; [reflexivity | lia].
    + rewrite Z.add_0_l. split; [reflexivity | lia].
Qed.

(** X15.  After any sequence of calls on a new object, [frame_count_] is the
    number of [captureFrame] calls of the sequence that answered [true],
    modulo [2^64]; it is that number itself as long as the sequence has
    fewer than [2^64] calls. *)
Theorem frame_count_is_number_of_captures
    garbage cs rs (s : DesktopDuplicator) log :
  run cs (DesktopDuplicator_new garbage) = Done rs s log ->
  frame_count_ s = wrap64 (count_captured cs rs) /\
  (Z.of_nat (List.length cs) < 2 ^ 64 ->
   frame_count_ s = count_captured cs rs).
Proof.
  intros Hrun.
  destruct (run_frame_count cs (DesktopDuplicator_new garbage) rs s log)
    as [H1 H2]; [cbn; lia | exact Hrun |].
  cbn [frame_count_ DesktopDuplicator_new] in H1. rewrite Z.add_0_l in H1.
  split; [exact H1|].
  intros Hlen. rewrite H1. apply wrap64_small. lia.
Qed.

Lemma frame_count_is_number_of_captures_example :
  run [initialize [] (setup_ok (desc_of 4 2)); captureFrame no_new_frame;
       captureFrame frame_ready; captureFrame not_a_texture]
      (DesktopDuplicator_new no_desc) =
    Done [returns (Boolean true); returns (Boolean false);
          returns (Boolean true); returns (Boolean false)]
         one_frame_4x2
         (setup_log ++ [AcquireNextFrame DXGI_ERROR_WAIT_TIMEOUT] ++ capture_log ++
          [AcquireNextFrame S_OK; QueryInterface_ID3D11Texture2D E_FAIL;
           ReleaseFrame]) /\
  Z.of_nat 4 < 2 ^ 64 /\
  frame_count_ one_frame_4x2 = 1.
Proof.
  assert (H : run [initialize [] (setup_ok (desc_of 4 2)); captureFrame no_new_frame;
                   captureFrame frame_ready; captureFrame not_a_texture]
                  (DesktopDuplicator_new no_desc) =
              Done [returns (Boolean true); returns (Boolean false);
                    returns (Boolean true); returns (Boolean false)]
                   one_frame_4x2
                   (setup_log ++ [AcquireNextFrame DXGI_ERROR_WAIT_TIMEOUT] ++
                    capture_log ++
                    [AcquireNextFrame S_OK; QueryInterface_ID3D11Texture2D E_FAIL;
                     ReleaseFrame]))
    by (vm_compute; reflexivity).
  assert (Hl : Z.of_nat 4 < 2 ^ 64) by reflexivity.
  split; [exact H|]. split; [exact Hl|].
  exact (proj2 (frame_count_is_number_of_captures _ _ _ _ _ H) Hl).
Defined.

(** X16.  In every state reached by calls on a new object, the staging
    texture, when there is one, was created with the width, the height and
    the format of the descriptor the object holds: the descriptor is only
    stored together with a new texture, or with none. *)
Theorem staging_sized_from_descriptor
    garbage cs rs (s : DesktopDuplicator) log t :
  run cs (DesktopDuplicator_new garbage) = Done rs s log ->
  staging_texture_ s = Some t ->
  tex_Width t = Width (ModeDesc (duplication_desc_ s)) /\
  tex_Height t = Height (ModeDesc (duplication_desc_ s)) /\
  tex_Format t = Format (ModeDesc (duplication_desc_ s)).
Proof.
  intros Hrun Ht.
  exact (inv_staging s (reachable_inv _ _ _ _ _ Hrun) t Ht).
Qed.

Lemma staging_sized_from_descriptor_example :
  run [initialize [] (setup_ok (desc_of 4 2)); captureFrame frame_ready]
      (DesktopDuplicator_new no_desc) =
    Done [returns (Boolean true); returns (Boolean true)] one_frame_4x2
         (setup_log ++ capture_log) /\
  staging_texture_ one_frame_4x2 =
    Some {| tex_id := 4%N; tex_Width := 4; tex_Height := 2;
            tex_Format := DXGI_FORMAT_B8G8R8A8_UNORM; tex_pixels := gradient |} /\
  4 = Width (ModeDesc (duplication_desc_ one_frame_4x2)) /\
  2 = Height (ModeDesc (duplication_desc_ one_frame_4x2)) /\
  DXGI_FORMAT_B8G8R8A8_UNORM = Format (ModeDesc (duplication_desc_ one_frame_4x2)).
Proof.
  assert (H : run [initialize [] (setup_ok (desc_of 4 2)); captureFrame frame_ready]
                  (DesktopDuplicator_new no_desc) =
              Done [returns (Boolean true); returns (Boolean true)] one_frame_4x2
                   (setup_log ++ capture_log))
    by (vm_compute; reflexivity).
  split; [exact H|]. split; [reflexivity|].
  exact (staging_sized_from_descriptor _ _ _ _ _ _ H eq_refl).
Defined.

Lemma same_but_unread_desc_refl (s : DesktopDuplicator) : same_but_unread_desc s s.
Proof. unfold same_but_unread_desc. repeat split; try reflexivity. left. reflexivity. Qed.

Lemma call_same_observation (c : api) (s1 s2 : DesktopDuplicator) :
  same_but_unread_desc s1 s2 ->
  match call c s1, call c s2 with
  | Done r1 s1' l1, Done r2 s2' l2 =>
      r1 = r2 /\ l1 = l2 /\ same_but_unread_desc s1' s2'
  | Crash l1, Crash l2 => l1 = l2
  | _, _ => False
  end.
Proof.
  destruct s1 as [dev ctx dup stg desc ini fc].
  destruct s2 as [dev2 ctx2 dup2 stg2 desc2 ini2 fc2].
  unfold same_but_unread_desc. dd_fields.
  intros (<- & <- & <- & <- & <- & <- & [<-|[-> ->]]).
  - destruct (call c _) as [l|r s' l]; [reflexivity|].
    split; [reflexivity|]. split; [reflexivity|].
    apply same_but_unread_desc_refl.
  - destruct c as [info p|p|p| |];
      destruct dev as [dev|], ctx as [ctx|], dup as [dup|];
      dd_go; try reflexivity;
      (split; [reflexivity|]); (split; [reflexivity|]);
      unfold same_but_unread_desc; dd_fields;
      repeat (split; [reflexivity|]);
      first [left; reflexivity | right; split; reflexivity].
Qed.

Lemma run_same_observation (cs : list api) : forall s1 s2,
  same_but_unread_desc s1 s2 ->
  match run cs s1, run cs s2 with
  | Done r1 s1' l1, Done r2 s2' l2 =>
      r1 = r2 /\ l1 = l2 /\ same_but_unread_desc s1' s2'
  | Crash l1, Crash l2 => l1 = l2
  | _, _ => False
  end.
Proof.
  induction cs as [|c cs IH]; intros s1 s2 Hs.
  - cbn. split; [reflexivity|]. split; [reflexivity | exact Hs].
  - rewrite !run_cons. pose proof (call_same_observation c s1 s2 Hs) as Hc.
    destruct (call c s1) as [l1|r1 t1 l1], (call c s2) as [l2|r2 t2 l2];
      try contradiction; [exact Hc|].
    destruct Hc as (<- & <- & Ht). specialize (IH t1 t2 Ht).
    destruct (run cs t1) as [m1|q1 u1 m1], (run cs t2) as [m2|q2 u2 m2];
      try contradiction.
    + rewrite IH. reflexivity.
    + destruct IH as (<- & <- & Hu). split; [reflexivity|].
      split; [reflexivity | exact Hu].
Qed.

(** X17.  The descriptor member has no initial value, and nothing reads it
    before a setup has stored one: two new objects that start with different
    memory in it give, for every sequence of calls and platform answers, the
    same results and the same platform calls, or the same crash. *)
Theorem uninitialized_descriptor_never_read
    (garbage1 garbage2 : DXGI_OUTDUPL_DESC) (cs : list api) :
  same_observation (run cs (DesktopDuplicator_new garbage1))
                   (run cs (DesktopDuplicator_new garbage2)).
Proof.
  assert (H : same_but_unread_desc (DesktopDuplicator_new garbage1)
                                   (DesktopDuplicator_new garbage2)).
  { unfold same_but_unread_desc. cbn. repeat split; try reflexivity.
    right. split; reflexivity. }
  pose proof (run_same_observation cs _ _ H) as Hr.
  unfold same_observation.
  destruct (run cs (DesktopDuplicator_new garbage1)),
           (run cs (DesktopDuplicator_new garbage2)); try contradiction.
  - exact Hr.
  - destruct Hr as (H1 & H2 & _). split; assumption.
Qed.

Lemma run_refusals (cs : list api) (s0 : DesktopDuplicator) :
  forallb is_query_or_capture cs = true ->
  initialized_ s0 = false ->
  staging_texture_ s0 = None ->
  run cs s0 = Done (refusals cs) s0 [].
Proof.
  intros Hcs Hi Ht. induction cs as [|c cs IH]; [reflexivity|].
  cbn [forallb] in Hcs. apply andb_true_iff in Hcs as [Hc Hcs].
  rewrite run_cons. unfold refusals. cbn [List.map].
  assert (Hcall : call c s0 =
                  Done (match c with
                        | captureFrame _ => throws "Not initialized" Undefined
                        | _ => returns Undefined
                        end) s0 []).
  { destruct c as [info p|p|p| |]; try discriminate Hc; cbn [call].
    - apply CaptureFrame_uninitialized. exact Hi.
    - unfold bind. rewrite (GetTexture_no_staging p s0 Ht). reflexivity.
    - unfold bind. rewrite (GetFrameInfo_uninitialized s0 Hi). reflexivity. }
  rewrite Hcall, (IH Hcs). reflexivity.
Qed.

(** X18.  An object without a session is inert: on a new object, and on any
    object after [release], both queries answer [undefined] and
    [captureFrame] raises "Not initialized", in any order and any number of
    times, without a platform call and without changing the object. *)
Theorem no_session_no_effect (cs : list api) (s : DesktopDuplicator) garbage :
  forallb is_query_or_capture cs = true ->
  run cs (DesktopDuplicator_new garbage) =
    Done (refusals cs) (DesktopDuplicator_new garbage) [] /\
  run (release :: cs) s =
    Done (returns Undefined :: refusals cs) (torn_down s) (teardown_log s).
Proof.
  intros Hcs. split.
  - apply run_refusals; [exact Hcs | reflexivity | reflexivity].
  - rewrite run_cons, call_release.
    rewrite (run_refusals cs (torn_down s) Hcs eq_refl eq_refl).
    rewrite app_nil_r. reflexivity.
Qed.

Lemma no_session_no_effect_example :
  forallb is_query_or_capture
    [getFrameInfo; captureFrame frame_ready; getTexture (mapped 16)] = true /\
  run [release; getFrameInfo; captureFrame frame_ready; getTexture (mapped 16)]
      one_frame_4x2 =
    Done [returns Undefined; returns Undefined;
          throws "Not initialized" Undefined; returns Undefined]
         (torn_down one_frame_4x2) (teardown_log one_frame_4x2).
Proof.
  split; [reflexivity|].
  exact (proj2 (no_session_no_effect
                  [getFrameInfo; captureFrame frame_ready; getTexture (mapped 16)]
                  one_frame_4x2 no_desc eq_refl)).
Defined.
